(** * Cheque signing and cash-out request of the swap chequebook demo

    A shallow embedding of [main/main.go]: the cheque value object
    ([ChequeParams]), its canonical encoding ([encodeForSignature]), the hash
    that is handed to the signer ([sigHash]) and the builder of the cash-out
    transaction ([CashChequeBeneficiaryRequest]).

    The Go file leans on go-ethereum for three things, which are modelled
    here as executable functions so that every statement below can be run
    on concrete data:
    - [crypto.Keccak256]  (module [Keccak]),
    - [accounts/abi]      (module [Abi]),
    - [core/types.NewTransaction] and the [EthBackend] interface. *)

From Stdlib.Strings Require Import String Ascii Byte.
From Stdlib Require Import ZArith List Lia Bool DecimalString.
Import ListNotations.

Local Open Scope Z_scope.

(** ** Bytes *)

Module Bytes.

(** Go's conversion [byte(v)]: keep the low eight bits. *)
Definition byte_of_Z (z : Z) : byte :=
  match Byte.of_N (Z.to_N (z mod 256)) with
  | Some b => b
  | None => x00
  end.

Definition Z_of_byte (b : byte) : Z := Z.of_N (Byte.to_N b).

(** [make([]byte, n)] *)
Definition make (n : nat) : list byte := repeat x00 n.

(** Unsigned big-endian reading of a byte string ([big.Int.SetBytes]). *)
Definition be_to_Z (bs : list byte) : Z :=
  fold_left (fun acc b => acc * 256 + Z_of_byte b) bs 0.

(** The [n] low-order bytes of [z], most significant first. *)
Fixpoint Z_to_be (n : nat) (z : Z) : list byte :=
  match n with
  | O => []
  | S m => byte_of_Z (Z.shiftr z (8 * Z.of_nat m)) :: Z_to_be m z
  end.

(** Unsigned little-endian reading, used for the Keccak lanes. *)
Definition le_to_Z (bs : list byte) : Z :=
  fold_right (fun b acc => Z_of_byte b + 256 * acc) 0 bs.

Definition Z_to_le (n : nat) (z : Z) : list byte :=
  map (fun i => byte_of_Z (Z.shiftr z (8 * Z.of_nat i))) (seq 0 n).

(** go-ethereum [common.LeftPadBytes(slice, l)]. *)
Definition LeftPadBytes (slice : list byte) (l : nat) : list byte :=
  if (l <=? length slice)%nat then slice
  else make (l - length slice) ++ slice.

(** go-ethereum [common.RightPadBytes(slice, l)]. *)
Definition RightPadBytes (slice : list byte) (l : nat) : list byte :=
  if (l <=? length slice)%nat then slice
  else slice ++ make (l - length slice).

(** [bytes.Equal(a, b)] *)
Fixpoint Equal (a b : list byte) : bool :=
  match a, b with
  | [], [] => true
  | x :: a', y :: b' => Byte.eqb x y && Equal a' b'
  | _, _ => false
  end.

(** [[]byte(s)] for a Go string, which is a byte string already. *)
Definition of_string (s : string) : list byte := list_byte_of_string s.

End Bytes.

(** ** Keccak-256

    [crypto.Keccak256] of go-ethereum: the Keccak sponge with capacity 512
    (rate 136 bytes), the legacy [0x01] domain byte and a 32-byte digest.
    The state is the 5 x 5 array of 64-bit lanes, lane [(x, y)] stored at
    index [x + 5 * y]. *)

Module Keccak.
Import Bytes.

Definition mask64 : Z := Z.ones 64.

Definition rotl64 (x : Z) (n : Z) : Z :=
  Z.land (Z.lor (Z.shiftl x n) (Z.shiftr x (64 - n))) mask64.

Definition not64 (x : Z) : Z := Z.lxor x mask64.

Definition lane (st : list Z) (i : nat) : Z := nth i st 0.

Definition rate : nat := 136.

Definition round_constants : list Z :=
  [ 0x0000000000000001; 0x0000000000008082; 0x800000000000808A;
    0x8000000080008000; 0x000000000000808B; 0x0000000080000001;
    0x8000000080008081; 0x8000000000008009; 0x000000000000008A;
    0x0000000000000088; 0x0000000080008009; 0x000000008000000A;
    0x000000008000808B; 0x800000000000008B; 0x8000000000008089;
    0x8000000000008003; 0x8000000000008002; 0x8000000000000080;
    0x000000000000800A; 0x800000008000000A; 0x8000000080008081;
    0x8000000000008080; 0x0000000080000001; 0x8000000080008008 ].

(** Rotation offsets, indexed like the state. *)
Definition rotation_offsets : list Z :=
  [  0;  1; 62; 28; 27;
    36; 44;  6; 55; 20;
     3; 10; 43; 25; 39;
    41; 45; 15; 21;  8;
    18;  2; 61; 56; 14 ].

Definition theta (st : list Z) : list Z :=
  let C x :=
    Z.lxor (lane st x)
      (Z.lxor (lane st (x + 5))
         (Z.lxor (lane st (x + 10))
            (Z.lxor (lane st (x + 15)) (lane st (x + 20))))) in
  let D x :=
    Z.lxor (C ((x + 4) mod 5)%nat) (rotl64 (C ((x + 1) mod 5)%nat) 1) in
  map (fun i => Z.lxor (lane st i) (D (i mod 5)%nat)) (seq 0 25).

(** rho and pi together: the lane written at [(X, Y)] is the rotated lane
    read at [((X + 3 * Y) mod 5, X)]. *)
Definition rho_pi (st : list Z) : list Z :=
  map (fun j =>
         let X := (j mod 5)%nat in
         let Y := (j / 5)%nat in
         let src := (((X + 3 * Y) mod 5) + 5 * X)%nat in
         rotl64 (lane st src) (nth src rotation_offsets 0))
      (seq 0 25).

Definition chi (st : list Z) : list Z :=
  map (fun i =>
         let x := (i mod 5)%nat in
         let row := (5 * (i / 5))%nat in
         Z.lxor (lane st i)
           (Z.land (not64 (lane st (row + (x + 1) mod 5)))
                   (lane st (row + (x + 2) mod 5))))
      (seq 0 25).

Definition iota (rc : Z) (st : list Z) : list Z :=
  match st with
  | [] => []
  | a :: rest => Z.lxor a rc :: rest
  end.

Definition round (st : list Z) (rc : Z) : list Z :=
  iota rc (chi (rho_pi (theta st))).

Definition keccak_f (st : list Z) : list Z :=
  fold_left round round_constants st.

Definition pad (msg : list byte) : list byte :=
  let q := (rate - length msg mod rate)%nat in
  if (q =? 1)%nat then msg ++ [x81]
  else msg ++ [x01] ++ make (q - 2) ++ [x80].

(** The lanes of one rate-sized block, eight little-endian bytes each. *)
Definition block_lanes (block : list byte) : list Z :=
  map (fun i => le_to_Z (firstn 8 (skipn (8 * i) block))) (seq 0 (rate / 8)).

Definition xor_block (st : list Z) (block : list byte) : list Z :=
  let ls := block_lanes block in
  map (fun i => Z.lxor (lane st i) (lane ls i)) (seq 0 25).

Fixpoint absorb (blocks : nat) (st : list Z) (msg : list byte) : list Z :=
  match blocks with
  | O => st
  | S k => absorb k (keccak_f (xor_block st (firstn rate msg))) (skipn rate msg)
  end.

Definition squeeze (st : list Z) : list byte :=
  flat_map (fun i => Z_to_le 8 (lane st i)) (seq 0 4).

Definition Keccak256 (data : list byte) : list byte :=
  let padded := pad data in
  squeeze (absorb (length padded / rate) (repeat 0 25) padded).

End Keccak.

(** ** Errors and results

    A Go function returning [(T, error)] returns a [result T]; an [error]
    value is identified with its message. *)

Definition error : Type := string.

Inductive result (A : Type) : Type :=
| Ok (a : A)
| Err (e : error).

Arguments Ok {A} a.
Arguments Err {A} e%_string.

Definition is_err {A : Type} (r : result A) : bool :=
  match r with
  | Ok _ => false
  | Err _ => true
  end.

Definition rbind {A B : Type} (r : result A) (k : A -> result B) : result B :=
  match r with
  | Ok a => k a
  | Err e => Err e
  end.

(** ** Addresses *)

Module Common.

Definition AddressLength : nat := 20.

(** [common.Address], that is [[AddressLength]byte]. *)
Record Address : Type := mkAddress {
  address_bytes : list byte;
  address_len : length address_bytes = AddressLength
}.

(** [a.Bytes()] *)
Definition Address_Bytes (a : Address) : list byte := address_bytes a.

(** [common.BytesToAddress(b)]: the last twenty bytes of [b], left padded
    with zeros when [b] is shorter. *)
Definition BytesToAddress_bytes (b : list byte) : list byte :=
  let b := skipn (length b - AddressLength) b in
  Bytes.make (AddressLength - length b) ++ b.

(** The array has twenty bytes whatever the length of the slice. *)
Definition BytesToAddress_len (b : list byte) :
  length (BytesToAddress_bytes b) = AddressLength.
Proof.
  unfold BytesToAddress_bytes, Bytes.make.
  rewrite length_app, repeat_length, length_skipn. unfold AddressLength. lia.
Qed.

Definition BytesToAddress (b : list byte) : Address :=
  mkAddress (BytesToAddress_bytes b) (BytesToAddress_len b).

End Common.

(** ** ABI packing (go-ethereum [accounts/abi]) *)

Module Abi.
Import Bytes Common.

(** The argument types that occur in the chequebook entry points. *)
Inductive Ty : Type :=
| AddressTy
| UintTy (size : nat)
| BytesTy.

(** The Go values handed to [Pack] as [interface{}]. *)
Inductive Value : Type :=
| VAddress (a : Address)
| VBigInt (z : Z)
| VBytes (b : list byte).

Record Argument : Type := mkArgument {
  arg_name : string;
  arg_type : Ty
}.

Record Method : Type := mkMethod {
  method_name : string;
  method_inputs : list Argument;
  method_sig : string;
  method_ID : list byte
}.

(** An [ABI] maps method names to methods. *)
Definition ABI : Type := list (string * Method).

(** One function entry of the JSON description. *)
Record Field : Type := mkField {
  field_name : string;
  field_inputs : list (string * string)
}.

(** [NewType]: the textual type of the JSON description. *)
Definition NewType (t : string) : result Ty :=
  if String.eqb t "address" then Ok AddressTy
  else if String.eqb t "uint256" then Ok (UintTy 256)
  else if String.eqb t "bytes" then Ok BytesTy
  else Err ("abi: unsupported arg type: " ++ t)%string.

Definition type_string (t : Ty) : string :=
  match t with
  | AddressTy => "address"
  | UintTy size => "uint" ++ NilEmpty.string_of_uint (Nat.to_uint size)
  | BytesTy => "bytes"
  end%string.

Fixpoint parse_inputs (ins : list (string * string)) : result (list Argument) :=
  match ins with
  | [] => Ok []
  | (n, t) :: rest =>
      rbind (NewType t) (fun ty =>
      rbind (parse_inputs rest) (fun args =>
      Ok (mkArgument n ty :: args)))
  end.

(** [Method.Sig]: [name(type1,type2,...)]. *)
Definition signature (name : string) (inputs : list Argument) : string :=
  (name ++ "(" ++ String.concat "," (map (fun a => type_string (arg_type a)) inputs) ++ ")")%string.

(** [NewMethod]: the identifier is the first four bytes of the hash of the
    signature. *)
Definition NewMethod (name : string) (inputs : list Argument) : Method :=
  let sig := signature name inputs in
  mkMethod name inputs sig (firstn 4 (Keccak.Keccak256 (of_string sig))).

(** [abi.JSON]: read the entries of the description in order. *)
Fixpoint JSON (fields : list Field) : result ABI :=
  match fields with
  | [] => Ok []
  | f :: rest =>
      rbind (parse_inputs (field_inputs f)) (fun inputs =>
      rbind (JSON rest) (fun abi =>
      Ok ((field_name f, NewMethod (field_name f) inputs) :: abi)))
  end.

Fixpoint lookup (abi : ABI) (name : string) : option Method :=
  match abi with
  | [] => None
  | (n, m) :: rest => if String.eqb n name then Some m else lookup rest name
  end.

(** [math.U256]: [x.And(x, tt256m1)], two's complement for a negative [x]. *)
Definition U256 (x : Z) : Z := Z.land x (Z.ones 256).

(** [math.U256Bytes]: [PaddedBigBytes(U256(n), 32)]. *)
Definition U256Bytes (n : Z) : list byte := Z_to_be 32 (U256 n).

(** [packNum] on an integer or a [*big.Int].  The value is not checked
    against the range of the ABI type: a negative [*big.Int] is written as
    its 256-bit two's complement, as in the go-ethereum releases the
    [contracts-v0-2-3] bindings were built against. *)
Definition packNum (z : Z) : list byte := U256Bytes z.

(** [packBytesSlice(bytes, l)] *)
Definition packBytesSlice (bytes : list byte) (l : nat) : list byte :=
  packNum (Z.of_nat l) ++ RightPadBytes bytes ((l + 31) / 32 * 32).

(** [Type.pack], with the dynamic type check of [typeCheck]. *)
Definition pack (t : Ty) (v : Value) : result (list byte) :=
  match t, v with
  | AddressTy, VAddress a => Ok (LeftPadBytes (Address_Bytes a) 32)
  | UintTy _, VBigInt z => Ok (packNum z)
  | BytesTy, VBytes b => Ok (packBytesSlice b (length b))
  | _, _ => Err ("abi: cannot use value as type " ++ type_string t ++ " as argument")%string
  end.

Definition isDynamicType (t : Ty) : bool :=
  match t with
  | BytesTy => true
  | _ => false
  end.

(** [getTypeSize]: every type here takes one 32-byte head slot. *)
Definition getTypeSize (t : Ty) : nat := 32.

(** The loop of [Arguments.Pack]: [ret] is the head written so far,
    [variableInput] the tail, [inputOffset] the offset of the next dynamic
    value. *)
Fixpoint pack_loop (abiArgs : list Argument) (args : list Value)
    (inputOffset : nat) (ret variableInput : list byte) : result (list byte) :=
  match abiArgs, args with
  | input :: abiArgs', a :: args' =>
      match pack (arg_type input) a with
      | Err e => Err e
      | Ok packed =>
          if isDynamicType (arg_type input) then
            pack_loop abiArgs' args' (inputOffset + length packed)
              (ret ++ packNum (Z.of_nat inputOffset)) (variableInput ++ packed)
          else
            pack_loop abiArgs' args' inputOffset (ret ++ packed) variableInput
      end
  | _, _ => Ok (ret ++ variableInput)
  end.

Definition Arguments_Pack (abiArgs : list Argument) (args : list Value)
  : result (list byte) :=
  if negb (length args =? length abiArgs)%nat then Err "argument count mismatch"
  else
    let inputOffset :=
      fold_left (fun off a => (off + getTypeSize (arg_type a))%nat) abiArgs 0%nat in
    pack_loop abiArgs args inputOffset [] [].

(** [ABI.Pack(name, args...)] for a method (not the constructor). *)
Definition Pack (abi : ABI) (name : string) (args : list Value) : result (list byte) :=
  match lookup abi name with
  | None => Err ("method '" ++ name ++ "' not found")%string
  | Some method =>
      match Arguments_Pack (method_inputs method) args with
      | Err e => Err e
      | Ok arguments => Ok (method_ID method ++ arguments)
      end
  end.

(** *** Unpacking, the inverse direction of the same scheme *)

Definition slice (data : list byte) (lo hi : nat) : list byte :=
  firstn (hi - lo) (skipn lo data).

(** [lengthPrefixPointsTo(index, output)]: where a dynamic value starts and
    how long it is. *)
Definition lengthPrefixPointsTo (index : nat) (output : list byte)
  : result (nat * nat) :=
  let bigOffsetEnd := be_to_Z (slice output index (index + 32)) + 32 in
  let outputLength := Z.of_nat (length output) in
  if outputLength <? bigOffsetEnd then Err "abi: cannot marshal: offset would go over slice boundary"
  else
    let offsetEnd := Z.to_nat bigOffsetEnd in
    let lengthBig := be_to_Z (slice output (offsetEnd - 32) offsetEnd) in
    let totalSize := bigOffsetEnd + lengthBig in
    if outputLength <? totalSize then Err "abi: cannot marshal: length larger than input"
    else Ok (offsetEnd, Z.to_nat lengthBig).

(** [toGoType(index, t, output)] *)
Definition toGoType (index : nat) (t : Ty) (output : list byte) : result Value :=
  if (length output <? index + 32)%nat then Err "abi: cannot marshal: insufficient input"
  else
    match t with
    | BytesTy =>
        match lengthPrefixPointsTo index output with
        | Err e => Err e
        | Ok (begin, len) => Ok (VBytes (slice output begin (begin + len)))
        end
    | AddressTy => Ok (VAddress (BytesToAddress (slice output index (index + 32))))
    | UintTy _ => Ok (VBigInt (be_to_Z (slice output index (index + 32))))
    end.

(** The loop of [Arguments.UnpackValues]. *)
Fixpoint unpack_loop (abiArgs : list Argument) (index : nat) (data : list byte)
  : result (list Value) :=
  match abiArgs with
  | [] => Ok []
  | arg :: rest =>
      match toGoType (index * 32) (arg_type arg) data with
      | Err e => Err e
      | Ok v => rbind (unpack_loop rest (S index) data) (fun vs => Ok (v :: vs))
      end
  end.

(** Decode call data: the method is found by its identifier, the
    arguments are read from what follows. *)
Definition UnpackInput (method : Method) (calldata : list byte) : result (list Value) :=
  if negb (Equal (firstn 4 calldata) (method_ID method))
  then Err "abi: method identifier mismatch"
  else unpack_loop (method_inputs method) 0 (skipn 4 calldata).

End Abi.

(** ** Transactions (go-ethereum [core/types]) *)

Module Types.
Import Common.

Record Transaction : Type := mkTransaction {
  Nonce : Z;
  GasPrice : Z;
  Gas : Z;
  To : option Address;
  Value : Z;
  Data : list byte
}.

(** [types.NewTransaction(nonce, to, amount, gasLimit, gasPrice, data)] *)
Definition NewTransaction (nonce : Z) (to : Address) (amount : Z)
    (gasLimit : Z) (gasPrice : Z) (data : list byte) : Transaction :=
  {| Nonce := nonce; GasPrice := gasPrice; Gas := gasLimit;
     To := Some to; Value := amount; Data := data |}.

End Types.

(** ** The ledger client

    [EthBackend] is an interface onto a node; a call may fail and may change
    what later calls see.  The node is a state [W] threaded through the
    calls, so that the order and the number of the queries are part of the
    model. *)

Definition M (W A : Type) : Type := W -> result A * W.

Definition ret {W A : Type} (a : A) : M W A := fun w => (Ok a, w).

Definition bind {W A B : Type} (m : M W A) (k : A -> M W B) : M W B :=
  fun w =>
    match m w with
    | (Ok a, w') => k a w'
    | (Err e, w') => (Err e, w')
    end.

(** A step that does not touch the ledger client. *)
Definition lift {W A : Type} (r : result A) : M W A := fun w => (r, w).

Declare Scope backend_scope.
Delimit Scope backend_scope with backend.
Notation "x <- m ;; k" := (bind m (fun x => k))
  (at level 61, m at next level, right associativity) : backend_scope.

Record EthBackend (W : Type) : Type := mkEthBackend {
  PendingNonceAt : Common.Address -> M W Z;
  SuggestGasPrice : M W Z
}.

Arguments PendingNonceAt {W} _ _ _.
Arguments SuggestGasPrice {W} _ _.

(** ** Package main *)

Import Bytes Common Abi Types.

(** Conversions between Go's integer types. *)
Definition uint64_range (v : Z) : Prop := 0 <= v < 2 ^ 64.

Definition int64 (v : Z) : Z :=
  let m := v mod 2 ^ 64 in
  if m <? 2 ^ 63 then m else m - 2 ^ 64.

(** [big.NewInt(x)] *)
Definition big_NewInt (x : Z) : Z := x.

(** [binary.BigEndian.PutUint64(b, v)]: the first eight bytes of the slice
    [b] are overwritten.  Go panics when [b] is shorter than eight bytes;
    the list version writes the eight bytes all the same. *)
Definition PutUint64 (b : list byte) (v : Z) : list byte :=
  [ byte_of_Z (Z.shiftr v 56); byte_of_Z (Z.shiftr v 48);
    byte_of_Z (Z.shiftr v 40); byte_of_Z (Z.shiftr v 32);
    byte_of_Z (Z.shiftr v 24); byte_of_Z (Z.shiftr v 16);
    byte_of_Z (Z.shiftr v 8); byte_of_Z v ] ++ skipn 8 b.

(** [fmt]'s [%d] verb on a length. *)
Definition fmt_d (n : nat) : list byte :=
  of_string (NilEmpty.string_of_uint (Nat.to_uint n)).

(** The format string of [sigHash] up to its first verb:
    ["\x19Ethereum Signed Message:\n"]. *)
Definition signedMessagePrefix : list byte :=
  [x19] ++ of_string "Ethereum Signed Message:" ++ [x0a].

(** ChequeParams encapsulate all cheque parameters *)
Record ChequeParams : Type := mkChequeParams {
  Contract : Address;
  Beneficiary : Address;
  CumulativePayout : Z
}.

(** encodeForSignature encodes the cheque params in the format used in the
    signing procedure *)
Definition encodeForSignature (cheque : ChequeParams) : list byte :=
  let cumulativePayoutBytes := make 32 in
  let cumulativePayoutBytes :=
    firstn 24 cumulativePayoutBytes
      ++ PutUint64 (skipn 24 cumulativePayoutBytes) (CumulativePayout cheque) in
  let input := Address_Bytes (Contract cheque) in
  let input := input ++ Address_Bytes (Beneficiary cheque) in
  let input := input ++ cumulativePayoutBytes in
  input.

(** sigHash hashes the cheque params using the prefix that would be added by
    eth_Sign *)
Definition sigHash (cheque : ChequeParams) : list byte :=
  let encoded := encodeForSignature cheque in
  let input := Keccak.Keccak256 encoded in
  let withPrefix := signedMessagePrefix ++ fmt_d (length input) ++ input in
  Keccak.Keccak256 withPrefix.

(** Modelled from the spec: [simpleswapfactory.ERC20SimpleSwapABI], the JSON
    description of the chequebook contract, is a constant of the contract
    bindings and not part of this repository.  Of its entries the one the
    request builder packs is kept, with the canonical signature
    [cashChequeBeneficiary(address,uint256,bytes)] and the argument names
    [recipient], [cumulativePayout], [signature]. *)
Definition ERC20SimpleSwapABI : list Field :=
  [ mkField "cashChequeBeneficiary"
      [ ("recipient", "address"); ("cumulativePayout", "uint256");
        ("signature", "bytes") ]%string ].

Open Scope backend_scope.

Definition CashChequeBeneficiaryRequest {W : Type} (backend : EthBackend W)
    (to : Address) (recipient : Address) (cheque : ChequeParams)
    (ownerSig : list byte) : M W Transaction :=
  abi <- lift (Abi.JSON ERC20SimpleSwapABI) ;;
  callData <- lift (Abi.Pack abi "cashChequeBeneficiary"
                      [ VAddress recipient;
                        VBigInt (big_NewInt (int64 (CumulativePayout cheque)));
                        VBytes ownerSig ]) ;;
  nonce <- PendingNonceAt backend (Beneficiary cheque) ;;
  gasPrice <- SuggestGasPrice backend ;;
  ret (NewTransaction nonce to (big_NewInt 0) 1000000 gasPrice callData).

Close Scope backend_scope.

(** ** Concrete data for running the model *)

Module Sample.

Definition zeroAddress : Address := mkAddress (repeat x00 20) eq_refl.

Definition addrC : Address := mkAddress (repeat xc0 20) eq_refl.

Definition addrB : Address := mkAddress (repeat xb0 20) eq_refl.

(** The recipient of the demonstration run,
    [0xAd4F6Efc6594fE9305bF9A69BAb8bd942aDAECDB]. *)
Definition rec : Address :=
  mkAddress
    [ xad; x4f; x6e; xfc; x65; x94; xfe; x93; x05; xbf;
      x9a; x69; xba; xb8; xbd; x94; x2a; xda; xec; xdb ] eq_refl.

(** A ledger client that counts the queries it has answered: the pending
    nonce of [addrB] is 7, of every other account 0, and the fee price is
    fixed. *)
Definition counting : EthBackend nat :=
  {| PendingNonceAt := fun a w =>
       (Ok (if Equal (Address_Bytes a) (Address_Bytes addrB) then 7 else 0), S w);
     SuggestGasPrice := fun w => (Ok 20000000000, S w) |}.

(** A ledger client whose nonce query fails. *)
Definition nonceDown : EthBackend nat :=
  {| PendingNonceAt := fun _ w => (Err "nonce unavailable", S w);
     SuggestGasPrice := fun w => (Ok 20000000000, S w) |}.

(** A ledger client whose fee-price query fails. *)
Definition priceDown : EthBackend nat :=
  {| PendingNonceAt := fun _ w => (Ok 7, S w);
     SuggestGasPrice := fun w => (Err "price unavailable", S w) |}.

Definition cheque100 : ChequeParams :=
  {| Contract := addrC; Beneficiary := addrB; CumulativePayout := 100 |}.

End Sample.

(** ** Reference values the properties are stated against *)

(** The layout the verifying contract recomputes: contract, beneficiary and
    the payout as a 32-byte big-endian number. *)
Definition canonicalEncoding (cheque : ChequeParams) : list byte :=
  Address_Bytes (Contract cheque) ++ Address_Bytes (Beneficiary cheque)
    ++ Z_to_be 32 (CumulativePayout cheque).

(** ["\x19Ethereum Signed Message:\n32"] *)
Definition personalSignPrefix32 : list byte :=
  [x19] ++ of_string "Ethereum Signed Message:" ++ [x0a] ++ of_string "32".

Definition canonicalHash (cheque : ChequeParams) : list byte :=
  Keccak.Keccak256 (personalSignPrefix32 ++ Keccak.Keccak256 (canonicalEncoding cheque)).

(** The method the request packs, as [abi.JSON] builds it. *)
Definition cashChequeBeneficiaryMethod : Method :=
  {| method_name := "cashChequeBeneficiary";
     method_inputs :=
       [ mkArgument "recipient" AddressTy;
         mkArgument "cumulativePayout" (UintTy 256);
         mkArgument "signature" BytesTy ];
     method_sig := "cashChequeBeneficiary(address,uint256,bytes)";
     method_ID := [x0d; x5f; x26; x59] |}.

(** What [abi.Pack] returns for the three arguments of the request. *)
Definition packedCall (recipient : Address) (payout : Z) (ownerSig : list byte)
  : list byte :=
  method_ID cashChequeBeneficiaryMethod
    ++ LeftPadBytes (Address_Bytes recipient) 32
    ++ packNum payout
    ++ packNum 96
    ++ packBytesSlice ownerSig (length ownerSig).

Module Run.
Import Sample.

Definition emptyTransaction : Transaction :=
  NewTransaction 0 zeroAddress 0 0 0 [].

(** The transaction built for [cheque100] and a two-byte signature. *)
Definition tx100 : Transaction :=
  Eval vm_compute in
    match CashChequeBeneficiaryRequest counting addrC rec cheque100 [x01; x02] 0%nat with
    | (Ok tx, _) => tx
    | (Err _, _) => emptyTransaction
    end.

(** A cheque whose payout has the top bit of its 64 set. *)
Definition chequeTopBit : ChequeParams :=
  {| Contract := addrC; Beneficiary := addrB; CumulativePayout := 2 ^ 63 |}.

End Run.

(** ** The rest of package main

    What the demonstration run needs around the cheque model: addresses in
    text form, the wallet, the transactor handed to the contract bindings,
    and the run itself. *)

(** *** Addresses as text (go-ethereum [common], Go [encoding/hex]) *)

Module HexText.
Import Bytes Common.

Definition hextable : list byte := of_string "0123456789abcdef".

(** [hex.EncodeToString] *)
Definition EncodeToString (src : list byte) : list byte :=
  flat_map (fun v =>
              [ nth (Z.to_nat (Z.shiftr (Z_of_byte v) 4)) hextable x00;
                nth (Z.to_nat (Z.land (Z_of_byte v) 15)) hextable x00 ])
           src.

(** [Address.Hex]: the lower-case digits, with the letters put in upper case
    where the matching nibble of the hash of the digits is above 7. *)
Definition Address_Hex (a : Address) : string :=
  let unchecksummed := EncodeToString (Address_Bytes a) in
  let hash := Keccak.Keccak256 unchecksummed in
  let result :=
    map (fun ic : nat * byte =>
           let (i, c) := ic in
           let hashByte := Z_of_byte (nth (i / 2) hash x00) in
           let hashByte :=
             if Nat.even i then Z.shiftr hashByte 4 else Z.land hashByte 15 in
           if (Z_of_byte x39 <? Z_of_byte c) && (7 <? hashByte)
           then byte_of_Z (Z_of_byte c - 32)
           else c)
        (combine (seq 0 (length unchecksummed)) unchecksummed) in
  ("0x" ++ string_of_list_byte result)%string.

(** [fromHexChar] *)
Definition fromHexChar (c : byte) : option Z :=
  let v := Z_of_byte c in
  if (Z_of_byte x30 <=? v) && (v <=? Z_of_byte x39) then Some (v - Z_of_byte x30)
  else if (Z_of_byte x61 <=? v) && (v <=? Z_of_byte x66) then Some (v - Z_of_byte x61 + 10)
  else if (Z_of_byte x41 <=? v) && (v <=? Z_of_byte x46) then Some (v - Z_of_byte x41 + 10)
  else None.

(** [hex.DecodeString] as [Hex2Bytes] uses it: the error is dropped and the
    bytes decoded before an invalid digit are kept. *)
Fixpoint Hex2Bytes (src : list byte) : list byte :=
  match src with
  | c1 :: c2 :: rest =>
      match fromHexChar c1, fromHexChar c2 with
      | Some a, Some b => byte_of_Z (Z.lor (Z.shiftl a 4) b) :: Hex2Bytes rest
      | _, _ => []
      end
  | _ => []
  end.

Definition has0xPrefix (s : list byte) : bool :=
  match s with
  | c0 :: c1 :: _ => Byte.eqb c0 x30 && (Byte.eqb c1 x78 || Byte.eqb c1 x58)
  | _ => false
  end.

(** [common.FromHex] *)
Definition FromHex (s : list byte) : list byte :=
  let s := if has0xPrefix s then skipn 2 s else s in
  let s := if Nat.odd (length s) then x30 :: s else s in
  Hex2Bytes s.

(** [common.HexToAddress] *)
Definition HexToAddress (s : string) : Address :=
  BytesToAddress (FromHex (of_string s)).

End HexText.

(** *** Accounts, receipts and the interfaces of the run *)

(** [accounts.Account] *)
Record Account : Type := mkAccount {
  Account_Address : Address;
  Account_URL : string
}.

(** [accounts.MimetypeTextPlain] *)
Definition MimetypeTextPlain : string := "text/plain".

(** [types.Signer], which the transactor receives and does not look at. *)
Inductive TypesSigner : Type :=
| HomesteadSigner
| EIP155Signer (chainId : Z).

(** [types.Log] *)
Record Log : Type := mkLog {
  Log_Address : Address;
  Log_Topics : list (list byte);
  Log_Data : list byte
}.

(** [types.Receipt], the fields the run reads. *)
Record Receipt : Type := mkReceipt {
  Receipt_Status : Z;
  Receipt_Logs : list Log
}.

(** [simpleswapfactory.SimpleSwapFactorySimpleSwapDeployed] *)
Record SimpleSwapDeployed : Type := mkSimpleSwapDeployed {
  ContractAddress : Address
}.

(** WalletBackend is minimum needed from go-ethereums wallet abstraction to
    support swap functions.  The chain identifier of [SignTx] is a
    [*big.Int] that may be [nil]. *)
Record WalletBackend (W : Type) : Type := mkWalletBackend {
  Accounts : W -> list Account * W;
  SignData : Account -> string -> list byte -> M W (list byte);
  SignTx : Account -> Transaction -> option Z -> M W Transaction
}.

Arguments Accounts {W} _ _.
Arguments SignData {W} _ _ _ _ _.
Arguments SignTx {W} _ _ _ _ _.

(** [bind.TransactOpts]; the fields that [NewWalletTransactor] leaves out
    keep their zero value. *)
Record TransactOpts (W : Type) : Type := mkTransactOpts {
  From : Address;
  Opts_Nonce : option Z;
  Signer : TypesSigner -> Address -> Transaction -> M W Transaction;
  Opts_Value : option Z;
  Opts_GasPrice : option Z;
  Opts_GasLimit : Z
}.

Arguments From {W} _.
Arguments Opts_Nonce {W} _.
Arguments Signer {W} _ _ _ _ _.
Arguments Opts_Value {W} _.
Arguments Opts_GasPrice {W} _.
Arguments Opts_GasLimit {W} _.

(** The bound token contract, [*simpleswapfactory.ERC20Mintable]. *)
Record ERC20Mintable (W : Type) : Type := mkERC20Mintable {
  Mint : TransactOpts W -> Address -> Z -> M W Transaction;
  BalanceOf : Address -> M W Z
}.

Arguments Mint {W} _ _ _ _ _.
Arguments BalanceOf {W} _ _ _.

(** The bound factory contract, [*simpleswapfactory.SimpleSwapFactory]. *)
Record SimpleSwapFactory (W : Type) : Type := mkSimpleSwapFactory {
  DeploySimpleSwap : TransactOpts W -> Address -> Z -> M W Transaction;
  ParseSimpleSwapDeployed : Log -> result SimpleSwapDeployed
}.

Arguments DeploySimpleSwap {W} _ _ _ _ _.
Arguments ParseSimpleSwapDeployed {W} _ _.

(** The value behind the [EthBackend] interface as the run uses it: the two
    queries of the request, and [SendTransaction]. *)
Record Ledger (W : Type) : Type := mkLedger {
  queries : EthBackend W;
  SendTransaction : Transaction -> M W unit
}.

Arguments queries {W} _.
Arguments SendTransaction {W} _ _ _.

(** The packages the run calls into: the generated contract bindings,
    [bind.WaitDeployed] and [bind.WaitMined], [fmt.Printf] (whose results
    the run drops), and for [run] the two constructors of its handles. *)
Record Packages (W : Type) : Type := mkPackages {
  DeployERC20Mintable :
    TransactOpts W -> Ledger W -> M W (Address * Transaction * ERC20Mintable W);
  DeploySimpleSwapFactory :
    TransactOpts W -> Ledger W -> Address ->
    M W (Address * Transaction * SimpleSwapFactory W);
  WaitDeployed : Ledger W -> Transaction -> M W Address;
  WaitMined : Ledger W -> Transaction -> M W Receipt;
  Printf : string -> W -> W;
  Dial : string -> M W (Ledger W);
  NewExternalSigner : string -> M W (WalletBackend W)
}.

Arguments DeployERC20Mintable {W} _ _ _ _.
Arguments DeploySimpleSwapFactory {W} _ _ _ _ _.
Arguments WaitDeployed {W} _ _ _ _.
Arguments WaitMined {W} _ _ _ _.
Arguments Printf {W} _ _ _.
Arguments Dial {W} _ _ _.
Arguments NewExternalSigner {W} _ _ _.

(** How a Go function that returns an [error] can end: it returns, or it
    panics. *)
Inductive outcome : Type :=
| Returned (err : result unit)
| Panicked (msg : string).

Arguments Panicked msg%_string.

Definition returned {W : Type} (r : result unit * W) : outcome * W :=
  (Returned (fst r), snd r).

(** A call whose results are dropped or that only returns an [error]. *)
Definition andThen {W A B : Type} (m : M W A) (k : M W B) : M W B :=
  bind m (fun _ => k).

Notation "m >> k" := (andThen m k)
  (at level 61, right associativity) : backend_scope.

Definition printf {W : Type} (pkg : Packages W) (s : string) : M W unit :=
  fun w => (Ok tt, Printf pkg s w).

Definition fail {W A : Type} (e : error) : M W A := fun w => (Err e, w).

Arguments fail {W A} e%_string _.

Definition newline : string := String (ascii_of_nat 10) EmptyString.

(** [%v] on a [uint64] or a [*big.Int]. *)
Definition fmt_v (z : Z) : string := NilZero.string_of_int (Z.to_int z).

(** [address == common.Address{}] and [address != account.Address]: arrays
    are compared element by element. *)
Definition Address_eqb (a b : Address) : bool :=
  Equal (Address_Bytes a) (Address_Bytes b).

(** [common.Address{}] *)
Definition zeroAddress : Address := mkAddress (make 20) eq_refl.

Definition backendURL : string := "http://localhost:8545".

Open Scope backend_scope.

Definition NewWalletTransactor {W : Type} (wallet : WalletBackend W)
    (account : Account) : TransactOpts W :=
  {| From := Account_Address account;
     Opts_Nonce := None;
     Signer := fun (signer : TypesSigner) (address : Address)
                   (transaction : Transaction) =>
       if negb (Address_eqb address (Account_Address account)) then
         fail "not authorized to sign this account"
       else
         SignTx wallet account transaction None;
     Opts_Value := None;
     Opts_GasPrice := None;
     Opts_GasLimit := 0 |}.

(** The loop over [receipt.Logs] in [runChequebook]: [address] keeps its
    value until a log parses, and the loop stops there. *)
Fixpoint firstDeployed {W : Type} (factory : SimpleSwapFactory W)
    (logs : list Log) (address : Address) : Address :=
  match logs with
  | [] => address
  | log :: rest =>
      match ParseSimpleSwapDeployed factory log with
      | Ok event => ContractAddress event
      | Err _ => firstDeployed factory rest address
      end
  end.

Definition runChequebook {W : Type} (pkg : Packages W) (ethBackend : Ledger W)
    (wallet : WalletBackend W) : W -> outcome * W :=
  fun w =>
    let (accounts, w) := Accounts wallet w in
    match accounts with
    | [] => (Panicked "runtime error: index out of range [0] with length 0", w)
    | account :: _ =>
        returned
          ((let opts := NewWalletTransactor wallet account in
            printf pkg ("selecting account " ++ HexText.Address_Hex (Account_Address account)
                          ++ newline) >>
            deployed <- DeployERC20Mintable pkg opts ethBackend ;;
            let '(_, tx, erc20) := deployed in
            erc20Address <- WaitDeployed pkg ethBackend tx ;;
            deployed <- DeploySimpleSwapFactory pkg opts ethBackend erc20Address ;;
            let '(factoryAddress, tx, factory) := deployed in
            WaitDeployed pkg ethBackend tx >>
            printf pkg ("deployed factory to " ++ HexText.Address_Hex factoryAddress
                          ++ newline) >>
            tx <- DeploySimpleSwap factory opts (From opts) (big_NewInt 0) ;;
            receipt <- WaitMined pkg ethBackend tx ;;
            let address := firstDeployed factory (Receipt_Logs receipt) zeroAddress in
            if Address_eqb address zeroAddress then
              fail "contract deployment failed"
            else
              printf pkg ("deployed simpleswap to " ++ HexText.Address_Hex address
                            ++ newline) >>
              tx <- Mint erc20 opts address (big_NewInt 50000) ;;
              WaitMined pkg ethBackend tx >>
              let cheque :=
                {| Contract := address;
                   Beneficiary := Account_Address account;
                   CumulativePayout := 100 |} in
              sig <- SignData wallet account MimetypeTextPlain (sigHash cheque) ;;
              let rec :=
                HexText.HexToAddress "0xAd4F6Efc6594fE9305bF9A69BAb8bd942aDAECDB" in
              tx <- CashChequeBeneficiaryRequest (queries ethBackend) address rec
                      cheque sig ;;
              tx <- SignTx wallet account tx None ;;
              SendTransaction ethBackend tx >>
              receipt <- WaitMined pkg ethBackend tx ;;
              printf pkg ("got receipt with status " ++ fmt_v (Receipt_Status receipt)
                            ++ newline) >>
              b <- BalanceOf erc20 rec ;;
              printf pkg ("balance: " ++ fmt_v b ++ newline) >>
              ret tt)%string w)
    end.

Definition run {W : Type} (pkg : Packages W) : W -> outcome * W :=
  fun w =>
    match Dial pkg backendURL w with
    | (Err err, w) => (Returned (Err err), w)
    | (Ok ethBackend, w) =>
        match NewExternalSigner pkg "./config/clef.ipc" w with
        | (Err err, w) => (Returned (Err err), w)
        | (Ok wallet, w) => runChequebook pkg ethBackend wallet w
        end
    end.

(** [main] panics with the error of [run]. *)
Definition main {W : Type} (pkg : Packages W) : W -> outcome * W :=
  fun w =>
    match run pkg w with
    | (Returned (Err err), w) => (Panicked err, w)
    | other => other
    end.

Close Scope backend_scope.

(** *** The two halves of [runChequebook]

    The run up to the receipt of the chequebook deployment, and the run from
    the deployed address on; the properties of the whole are stated with
    these. *)

Open Scope backend_scope.

(** From [NewWalletTransactor] to the [WaitMined] that follows
    [DeploySimpleSwap]. *)
Definition deployment {W : Type} (pkg : Packages W) (ethBackend : Ledger W)
    (wallet : WalletBackend W) (account : Account)
  : M W (ERC20Mintable W * SimpleSwapFactory W * Receipt) :=
  (let opts := NewWalletTransactor wallet account in
   printf pkg ("selecting account " ++ HexText.Address_Hex (Account_Address account)
                 ++ newline) >>
   deployed <- DeployERC20Mintable pkg opts ethBackend ;;
   let '(_, tx, erc20) := deployed in
   erc20Address <- WaitDeployed pkg ethBackend tx ;;
   deployed <- DeploySimpleSwapFactory pkg opts ethBackend erc20Address ;;
   let '(factoryAddress, tx, factory) := deployed in
   WaitDeployed pkg ethBackend tx >>
   printf pkg ("deployed factory to " ++ HexText.Address_Hex factoryAddress
                 ++ newline) >>
   tx <- DeploySimpleSwap factory opts (From opts) (big_NewInt 0) ;;
   receipt <- WaitMined pkg ethBackend tx ;;
   ret (erc20, factory, receipt))%string.

(** The recipient of the demonstration run. *)
Definition recipientOfRun : Address :=
  HexText.HexToAddress "0xAd4F6Efc6594fE9305bF9A69BAb8bd942aDAECDB".

(** The cheque of the demonstration run. *)
Definition chequeOfRun (address : Address) (account : Account) : ChequeParams :=
  {| Contract := address;
     Beneficiary := Account_Address account;
     CumulativePayout := 100 |}.

(** From the minting of the tokens to the wallet's signature on the
    cheque. *)
Definition funding {W : Type} (pkg : Packages W) (ethBackend : Ledger W)
    (wallet : WalletBackend W) (account : Account) (erc20 : ERC20Mintable W)
    (address : Address) : M W (list byte) :=
  (let opts := NewWalletTransactor wallet account in
   printf pkg ("deployed simpleswap to " ++ HexText.Address_Hex address ++ newline) >>
   tx <- Mint erc20 opts address (big_NewInt 50000) ;;
   WaitMined pkg ethBackend tx >>
   SignData wallet account MimetypeTextPlain (sigHash (chequeOfRun address account)))%string.

(** From the signed transaction on the wire to the end. *)
Definition settlement {W : Type} (pkg : Packages W) (ethBackend : Ledger W)
    (erc20 : ERC20Mintable W) (tx : Transaction) : M W unit :=
  (receipt <- WaitMined pkg ethBackend tx ;;
   printf pkg ("got receipt with status " ++ fmt_v (Receipt_Status receipt)
                 ++ newline) >>
   b <- BalanceOf erc20 recipientOfRun ;;
   printf pkg ("balance: " ++ fmt_v b ++ newline) >>
   ret tt)%string.

Close Scope backend_scope.

(** *** A simulated node and wallet

    The world is the journal of the calls answered and the lines printed,
    oldest first. *)

Module Demo.

Definition World : Type := list string.

Definition note {A : Type} (s : string) (r : result A) : M World A :=
  fun w => (r, w ++ [s]).

Definition account0 : Account := mkAccount Sample.addrB "extapi://clef.ipc".

Definition account1 : Account := mkAccount Sample.addrC "extapi://clef.ipc".

Definition signature65 : list byte := repeat x07 65.

Definition someTransaction : Transaction :=
  NewTransaction 0 Sample.zeroAddress 0 0 0 [].

(** A wallet with the given accounts; [signs] tells whether it agrees to
    sign data. *)
Definition wallet (accounts : list Account) (signs : bool) : WalletBackend World :=
  {| Accounts := fun w => (accounts, w ++ ["Accounts"%string]);
     SignData := fun _ _ _ =>
       note "SignData" (if signs then Ok signature65 else Err "request denied");
     SignTx := fun _ tx _ => note "SignTx" (Ok tx) |}.

Definition erc20 : ERC20Mintable World :=
  {| Mint := fun _ _ _ => note "Mint" (Ok someTransaction);
     BalanceOf := fun _ => note "BalanceOf" (Ok 100) |}.

(** A log parses when it has a topic; the address is read from its data. *)
Definition factory : SimpleSwapFactory World :=
  {| DeploySimpleSwap := fun _ _ _ => note "DeploySimpleSwap" (Ok someTransaction);
     ParseSimpleSwapDeployed := fun log =>
       match Log_Topics log with
       | [] => Err "no event signature found"
       | _ :: _ => Ok (mkSimpleSwapDeployed (BytesToAddress (Log_Data log)))
       end |}.

Definition ledger : Ledger World :=
  {| queries :=
       {| PendingNonceAt := fun _ => note "PendingNonceAt" (Ok 7);
          SuggestGasPrice := note "SuggestGasPrice" (Ok 20000000000) |};
     SendTransaction := fun _ => note "SendTransaction" (Ok tt) |}.

(** The packages, for a node whose receipts carry [logs]. *)
Definition packages (logs : list Log) : Packages World :=
  {| DeployERC20Mintable := fun _ _ =>
       note "DeployERC20Mintable" (Ok (Sample.rec, someTransaction, erc20));
     DeploySimpleSwapFactory := fun _ _ _ =>
       note "DeploySimpleSwapFactory" (Ok (Sample.rec, someTransaction, factory));
     WaitDeployed := fun _ _ => note "WaitDeployed" (Ok Sample.rec);
     WaitMined := fun _ _ => note "WaitMined" (Ok (mkReceipt 1 logs));
     Printf := fun s w => w ++ [s];
     Dial := fun _ => note "Dial" (Ok ledger);
     NewExternalSigner := fun _ => note "NewExternalSigner" (Ok (wallet [account0] true)) |}.

Definition foreignLog : Log := mkLog Sample.addrC [] [x01].

Definition deployedLog : Log := mkLog Sample.addrC [[x01]] (Address_Bytes Sample.addrC).

Definition laterLog : Log := mkLog Sample.addrC [[x02]] (Address_Bytes Sample.addrB).

Definition zeroLog : Log := mkLog Sample.addrC [[x01]] [].

Definition goodLogs : list Log := [foreignLog; deployedLog; laterLog].

(** The journal after the deployment phase, which does not depend on the
    logs. *)
Definition journalOfDeployment : World :=
  Eval vm_compute in
    snd (deployment (packages []) ledger (wallet [account0] true) account0
           ["Accounts"%string]).

(** The journal up to the request for the signature of the cheque. *)
Definition journalOfFunding : World :=
  Eval vm_compute in
    snd (runChequebook (packages goodLogs) ledger (wallet [account0] false) []).

(** The journal of a complete run. *)
Definition journalOfRun : World :=
  Eval vm_compute in
    snd (runChequebook (packages goodLogs) ledger (wallet [account0] true) []).

End Demo.

(** * Properties *)

(** ** Bytes and integers *)

Section ByteFacts.

Lemma Z_of_byte_range (b : byte) : 0 <= Z_of_byte b < 256.
Proof.
  unfold Z_of_byte. pose proof (Byte.to_N_bounded b) as H.
  lia.
Qed.

Lemma Z_of_byte_of_Z (z : Z) : Z_of_byte (byte_of_Z z) = z mod 256.
Proof.
  unfold Z_of_byte, byte_of_Z.
  assert (Hr : 0 <= z mod 256 < 256) by (apply Z.mod_pos_bound; lia).
  destruct (Byte.of_N (Z.to_N (z mod 256))) as [b|] eqn:E.
  - apply Byte.to_of_N in E. rewrite E. lia.
  - apply Byte.of_N_None_iff in E. lia.
Qed.

Lemma byte_of_Z_of_byte (b : byte) : byte_of_Z (Z_of_byte b) = b.
Proof.
  unfold byte_of_Z. rewrite Z.mod_small by apply Z_of_byte_range.
  unfold Z_of_byte. rewrite N2Z.id, Byte.of_to_N. reflexivity.
Qed.

Lemma byte_of_Z_mod (z : Z) : byte_of_Z (z mod 256) = byte_of_Z z.
Proof. unfold byte_of_Z. rewrite Z.mod_mod by lia. reflexivity. Qed.

Lemma byte_of_Z_eq (a b : Z) : a mod 256 = b mod 256 -> byte_of_Z a = byte_of_Z b.
Proof. intros H. rewrite <- (byte_of_Z_mod a), H. apply byte_of_Z_mod. Qed.

Lemma Z_to_be_length (n : nat) (z : Z) : length (Z_to_be n z) = n.
Proof. induction n as [|n IH]; simpl; [reflexivity | now rewrite IH]. Qed.

Lemma Z_to_le_length (n : nat) (z : Z) : length (Z_to_le n z) = n.
Proof. unfold Z_to_le. now rewrite length_map, length_seq. Qed.

Lemma make_length (n : nat) : length (make n) = n.
Proof. apply repeat_length. Qed.

Lemma be_to_Z_acc (bs : list byte) (acc : Z) :
  fold_left (fun a b => a * 256 + Z_of_byte b) bs acc
  = acc * 256 ^ Z.of_nat (length bs) + be_to_Z bs.
Proof.
  unfold be_to_Z. revert acc.
  induction bs as [|b bs IH]; intros acc.
  - simpl. lia.
  - cbn [fold_left length]. rewrite IH, (IH (0 * 256 + Z_of_byte b)).
    rewrite Nat2Z.inj_succ, Z.pow_succ_r by lia. lia.
Qed.

Lemma be_to_Z_cons (b : byte) (bs : list byte) :
  be_to_Z (b :: bs) = Z_of_byte b * 256 ^ Z.of_nat (length bs) + be_to_Z bs.
Proof. unfold be_to_Z at 1. cbn [fold_left]. rewrite be_to_Z_acc. lia. Qed.

Lemma be_to_Z_app (xs ys : list byte) :
  be_to_Z (xs ++ ys) = be_to_Z xs * 256 ^ Z.of_nat (length ys) + be_to_Z ys.
Proof.
  unfold be_to_Z at 1. rewrite fold_left_app.
  fold (be_to_Z xs). apply be_to_Z_acc.
Qed.

Lemma be_to_Z_make (n : nat) : be_to_Z (make n) = 0.
Proof.
  induction n as [|n IH]; [reflexivity|].
  unfold make in *. cbn [repeat]. rewrite be_to_Z_cons, IH. reflexivity.
Qed.

Lemma be_to_Z_range (bs : list byte) :
  0 <= be_to_Z bs < 256 ^ Z.of_nat (length bs).
Proof.
  induction bs as [|b bs IH].
  - cbn. lia.
  - rewrite be_to_Z_cons. cbn [length].
    rewrite Nat2Z.inj_succ, Z.pow_succ_r by lia.
    pose proof (Z_of_byte_range b). nia.
Qed.

(** Reading back what [Z_to_be] wrote gives the number modulo the width. *)
Lemma be_to_Z_to_be (n : nat) (z : Z) :
  be_to_Z (Z_to_be n z) = z mod 256 ^ Z.of_nat n.
Proof.
  induction n as [|n IH].
  - cbn. now rewrite Z.mod_1_r.
  - cbn [Z_to_be]. rewrite be_to_Z_cons, Z_to_be_length, IH, Z_of_byte_of_Z.
    rewrite Nat2Z.inj_succ, Z.pow_succ_r by lia.
    rewrite Z.shiftr_div_pow2 by lia.
    replace (2 ^ (8 * Z.of_nat n)) with (256 ^ Z.of_nat n)
      by (rewrite Z.pow_mul_r by lia; reflexivity).
    assert (Hp : 0 < 256 ^ Z.of_nat n) by (apply Z.pow_pos_nonneg; lia).
    rewrite (Z.mul_comm 256), Z.rem_mul_r by lia. lia.
Qed.

(** Bytes above the size of the number are zero. *)
Lemma Z_to_be_high_zero (n k : nat) (z : Z) :
  0 <= z < 256 ^ Z.of_nat k ->
  Z_to_be (n + k) z = make n ++ Z_to_be k z.
Proof.
  intros Hz. induction n as [|n IH]; [reflexivity|].
  cbn [Nat.add Z_to_be]. rewrite IH. unfold make. cbn [repeat app]. f_equal.
  rewrite Z.shiftr_div_pow2 by lia.
  rewrite Z.div_small; [reflexivity|].
  split; [lia|]. apply Z.lt_le_trans with (256 ^ Z.of_nat k); [lia|].
  replace (8 * Z.of_nat (n + k)) with (8 * Z.of_nat k + 8 * Z.of_nat n) by lia.
  rewrite Z.pow_add_r, Z.pow_mul_r by lia.
  change (2 ^ 8) with 256.
  assert (0 < 256 ^ Z.of_nat k) by (apply Z.pow_pos_nonneg; lia).
  assert (0 < 2 ^ (8 * Z.of_nat n)) by (apply Z.pow_pos_nonneg; lia).
  nia.
Qed.

(** Only the low [n] bytes of a number matter to [Z_to_be n]. *)
Lemma Z_to_be_mod (n : nat) (z : Z) :
  Z_to_be n (z mod 256 ^ Z.of_nat n) = Z_to_be n z.
Proof.
  assert (G : forall m k : nat,
             Z_to_be m (z mod 256 ^ Z.of_nat (m + k)) = Z_to_be m z).
  { induction m as [|m IH]; intros k; [reflexivity|].
    cbn [Z_to_be]. f_equal.
    - apply byte_of_Z_eq.
      rewrite !Z.shiftr_div_pow2 by lia.
      replace (256 ^ Z.of_nat (S m + k))
        with (2 ^ (8 * Z.of_nat m) * (256 * 256 ^ Z.of_nat k)).
      2:{ replace (Z.of_nat (S m + k)) with (Z.of_nat m + (1 + Z.of_nat k)) by lia.
          rewrite Z.pow_add_r, Z.pow_add_r, (Z.pow_mul_r 2 8) by lia.
          reflexivity. }
      assert (0 < 2 ^ (8 * Z.of_nat m)) by (apply Z.pow_pos_nonneg; lia).
      assert (0 < 256 ^ Z.of_nat k) by (apply Z.pow_pos_nonneg; lia).
      rewrite Z.rem_mul_r by lia.
      rewrite (Z.mul_comm (2 ^ (8 * Z.of_nat m))), Z.div_add by lia.
      rewrite (Z.div_small (z mod _)) by (apply Z.mod_pos_bound; lia).
      rewrite Z.add_0_l, Z.rem_mul_r by lia.
      rewrite (Z.mul_comm 256), Z.mod_add by lia. apply Z.mod_mod. lia.
    - replace (S m + k)%nat with (m + S k)%nat by lia. apply IH. }
  specialize (G n 0%nat). now rewrite Nat.add_0_r in G.
Qed.

Lemma Equal_refl (bs : list byte) : Equal bs bs = true.
Proof.
  induction bs as [|b bs IH]; [reflexivity|].
  cbn [Equal]. rewrite IH, andb_true_r. now apply Byte.byte_dec_lb.
Qed.

End ByteFacts.

(** ** The digest has thirty-two bytes *)

Lemma Keccak256_length (data : list byte) : length (Keccak.Keccak256 data) = 32%nat.
Proof.
  unfold Keccak.Keccak256, Keccak.squeeze.
  generalize (Keccak.absorb (length (Keccak.pad data) / Keccak.rate)
                (repeat 0 25) (Keccak.pad data)).
  intros st. cbn [seq flat_map].
  rewrite !length_app, !Z_to_le_length. reflexivity.
Qed.

(** ** The digest on known inputs *)

Example Keccak256_empty :
  Keccak.Keccak256 []
  =
    [ xc5; xd2; x46; x01; x86; xf7; x23; x3c; x92; x7e; x7d; xb2; xdc;
      xc7; x03; xc0; xe5; x00; xb6; x53; xca; x82; x27; x3b; x7b; xfa;
      xd8; x04; x5d; x85; xa4; x70 ].
Proof. vm_compute. reflexivity. Qed.

Example Keccak256_abc :
  Keccak.Keccak256 (of_string "abc")
  =
    [ x4e; x03; x65; x7a; xea; x45; xa9; x4f; xc7; xd4; x7b; xa8; x26;
      xc8; xd6; x67; xc0; xd1; xe6; xe3; x3a; x64; xa0; x36; xec; x44;
      xf5; x8f; xa1; x2d; x6c; x45 ].
Proof. vm_compute. reflexivity. Qed.

Example selector_transfer :
  firstn 4 (Keccak.Keccak256 (of_string "transfer(address,uint256)"))
  = [xa9; x05; x9c; xbb].
Proof. vm_compute. reflexivity. Qed.

(** ** The cheque model *)

Lemma PutUint64_be (b : list byte) (v : Z) :
  PutUint64 b v = Z_to_be 8 v ++ skipn 8 b.
Proof. reflexivity. Qed.

(** The slice handed to [PutUint64] has the eight bytes it needs. *)
Lemma PutUint64_slice_length : length (skipn 24 (make 32)) = 8%nat.
Proof. reflexivity. Qed.

Lemma encodeForSignature_layout (cheque : ChequeParams) :
  encodeForSignature cheque
  = Address_Bytes (Contract cheque) ++ Address_Bytes (Beneficiary cheque)
      ++ make 24 ++ Z_to_be 8 (CumulativePayout cheque).
Proof.
  unfold encodeForSignature. rewrite PutUint64_be.
  change (firstn 24 (make 32)) with (make 24).
  change (skipn 8 (skipn 24 (make 32))) with (@nil byte).
  rewrite app_nil_r, <- app_assoc. reflexivity.
Qed.

Lemma uint64_range_256 (v : Z) : uint64_range v -> 0 <= v < 256 ^ Z.of_nat 8.
Proof. unfold uint64_range. change (256 ^ Z.of_nat 8) with (2 ^ 64). trivial. Qed.

Lemma encodeForSignature_canonical (cheque : ChequeParams) :
  uint64_range (CumulativePayout cheque) ->
  encodeForSignature cheque = canonicalEncoding cheque.
Proof.
  intros Hr. rewrite encodeForSignature_layout. unfold canonicalEncoding.
  change 32%nat with (24 + 8)%nat at 1.
  rewrite (Z_to_be_high_zero 24 8) by now apply uint64_range_256.
  reflexivity.
Qed.

Lemma skipn_40_addresses (a b : Address) (rest : list byte) :
  skipn 40 (Address_Bytes a ++ Address_Bytes b ++ rest) = rest.
Proof.
  rewrite app_assoc.
  rewrite skipn_app, skipn_all2, app_nil_l.
  - rewrite length_app. unfold Address_Bytes. rewrite !address_len. reflexivity.
  - rewrite length_app. unfold Address_Bytes. rewrite !address_len.
    unfold AddressLength. lia.
Qed.

Lemma sigHash_unfold (cheque : ChequeParams) :
  sigHash cheque
  = Keccak.Keccak256
      (personalSignPrefix32 ++ Keccak.Keccak256 (encodeForSignature cheque)).
Proof.
  unfold sigHash. rewrite Keccak256_length.
  change (fmt_d 32) with (of_string "32").
  unfold signedMessagePrefix, personalSignPrefix32.
  rewrite <- !app_assoc. reflexivity.
Qed.

(** C1: the hash to sign is [Keccak256] of the personal-message prefix with
    the decimal length 32, followed by [Keccak256] of the cheque encoding,
    and it is 32 bytes long. *)
Theorem sigHash_is_prefixed_double_hash (cheque : ChequeParams) :
  sigHash cheque
  = Keccak.Keccak256
      (([x19] ++ of_string "Ethereum Signed Message:" ++ [x0a; x33; x32])
         ++ Keccak.Keccak256 (encodeForSignature cheque))
  /\ length (sigHash cheque) = 32%nat.
Proof.
  split.
  - apply sigHash_unfold.
  - unfold sigHash. apply Keccak256_length.
Qed.

(** C2: the encoding is the 20 bytes of the contract address, the 20 bytes
    of the beneficiary address and the payout as a 32-byte big-endian
    unsigned number whose 24 high bytes are zero; a payout of zero gives
    32 zero bytes. *)
Theorem encodeForSignature_fields (cheque : ChequeParams) :
  uint64_range (CumulativePayout cheque) ->
  let e := encodeForSignature cheque in
  e = Address_Bytes (Contract cheque) ++ Address_Bytes (Beneficiary cheque)
        ++ Z_to_be 32 (CumulativePayout cheque)
  /\ length (Address_Bytes (Contract cheque)) = 20%nat
  /\ length (Address_Bytes (Beneficiary cheque)) = 20%nat
  /\ length (skipn 40 e) = 32%nat
  /\ be_to_Z (skipn 40 e) = CumulativePayout cheque
  /\ firstn 24 (skipn 40 e) = repeat x00 24
  /\ (CumulativePayout cheque = 0 -> skipn 40 e = repeat x00 32).
Proof.
  intros Hr e. subst e.
  split; [now apply encodeForSignature_canonical|].
  split; [apply address_len|]. split; [apply address_len|].
  rewrite encodeForSignature_layout, skipn_40_addresses.
  split; [|split; [|split]].
  - rewrite length_app, make_length, Z_to_be_length. reflexivity.
  - rewrite be_to_Z_app, be_to_Z_make, be_to_Z_to_be, Z_to_be_length.
    rewrite Z.mod_small by now apply uint64_range_256. lia.
  - reflexivity.
  - intros H0. rewrite H0. reflexivity.
Qed.

Lemma encodeForSignature_fields_witness :
  uint64_range (CumulativePayout Sample.cheque100)
  /\ be_to_Z (skipn 40 (encodeForSignature Sample.cheque100)) = 100.
Proof.
  assert (H : uint64_range (CumulativePayout Sample.cheque100))
    by (unfold uint64_range; simpl; lia).
  split; [exact H|].
  destruct (encodeForSignature_fields Sample.cheque100 H) as (_ & _ & _ & _ & Hv & _).
  exact Hv.
Defined.

(** C3: the encoding of a cheque whose payout is between 0 and 2^64 - 1 is
    exactly 72 bytes long. *)
Theorem encodeForSignature_length (cheque : ChequeParams) :
  uint64_range (CumulativePayout cheque) ->
  length (encodeForSignature cheque) = 72%nat.
Proof.
  intros _. rewrite encodeForSignature_layout.
  rewrite !length_app, make_length, Z_to_be_length.
  unfold Address_Bytes. rewrite !address_len. reflexivity.
Qed.

Lemma encodeForSignature_length_witness :
  length (encodeForSignature
            {| Contract := Sample.addrC; Beneficiary := Sample.addrB;
               CumulativePayout := 2 ^ 64 - 1 |}) = 72%nat.
Proof.
  apply encodeForSignature_length. unfold uint64_range. simpl. lia.
Defined.

(** C6: two cheques for the same contract and beneficiary, the second with
    the smaller payout: the encoding and the hash of each are the canonical
    ones of that cheque; nothing depends on the order of the payouts. *)
Theorem decreasing_payout_is_accepted (first second : ChequeParams) :
  Contract second = Contract first ->
  Beneficiary second = Beneficiary first ->
  uint64_range (CumulativePayout first) ->
  uint64_range (CumulativePayout second) ->
  CumulativePayout second < CumulativePayout first ->
  (encodeForSignature first = canonicalEncoding first
   /\ sigHash first = canonicalHash first)
  /\ (encodeForSignature second = canonicalEncoding second
      /\ sigHash second = canonicalHash second).
Proof.
  intros _ _ H1 H2 _.
  unfold canonicalHash.
  rewrite <- (encodeForSignature_canonical first H1).
  rewrite <- (encodeForSignature_canonical second H2).
  repeat split; apply sigHash_unfold.
Qed.

Lemma decreasing_payout_is_accepted_witness :
  sigHash {| Contract := Sample.addrC; Beneficiary := Sample.addrB;
             CumulativePayout := 40 |}
  = canonicalHash {| Contract := Sample.addrC; Beneficiary := Sample.addrB;
                     CumulativePayout := 40 |}.
Proof.
  refine (proj2 (proj2 (decreasing_payout_is_accepted Sample.cheque100
                          {| Contract := Sample.addrC; Beneficiary := Sample.addrB;
                             CumulativePayout := 40 |} eq_refl eq_refl _ _ _)));
    unfold uint64_range; simpl; lia.
Defined.

(** C9: cheques that agree on contract, beneficiary and payout have the same
    encoding and the same hash. *)
Theorem encoding_and_hash_depend_on_fields_only (c1 c2 : ChequeParams) :
  Contract c1 = Contract c2 ->
  Beneficiary c1 = Beneficiary c2 ->
  CumulativePayout c1 = CumulativePayout c2 ->
  encodeForSignature c1 = encodeForSignature c2
  /\ sigHash c1 = sigHash c2.
Proof.
  intros HC HB HP.
  assert (He : encodeForSignature c1 = encodeForSignature c2).
  { unfold encodeForSignature. rewrite HC, HB, HP. reflexivity. }
  split; [exact He|].
  unfold sigHash. rewrite He. reflexivity.
Qed.

Lemma encoding_and_hash_depend_on_fields_only_witness :
  sigHash Sample.cheque100
  = sigHash (mkChequeParams (mkAddress (repeat xc0 20) eq_refl)
                            (mkAddress (repeat xb0 20) eq_refl) (99 + 1)).
Proof.
  refine (proj2 (encoding_and_hash_depend_on_fields_only Sample.cheque100
                   (mkChequeParams (mkAddress (repeat xc0 20) eq_refl)
                      (mkAddress (repeat xb0 20) eq_refl) (99 + 1)) _ _ _));
    reflexivity.
Defined.

(** ** The cash-out request *)

Lemma JSON_ERC20SimpleSwapABI :
  Abi.JSON ERC20SimpleSwapABI
  = Ok [("cashChequeBeneficiary"%string, cashChequeBeneficiaryMethod)].
Proof. vm_compute. reflexivity. Qed.

(** The selector is the first four bytes of the hash of the canonical
    signature. *)
Lemma cashChequeBeneficiary_selector :
  method_ID cashChequeBeneficiaryMethod
  = firstn 4 (Keccak.Keccak256
                (of_string "cashChequeBeneficiary(address,uint256,bytes)")).
Proof. vm_compute. reflexivity. Qed.

Lemma Pack_cashChequeBeneficiary (recipient : Address) (payout : Z)
    (ownerSig : list byte) :
  Abi.Pack [("cashChequeBeneficiary"%string, cashChequeBeneficiaryMethod)]
    "cashChequeBeneficiary"
    [VAddress recipient; VBigInt payout; VBytes ownerSig]
  = Ok (packedCall recipient payout ownerSig).
Proof.
  unfold Abi.Pack, packedCall.
  change (lookup _ _) with (Some cashChequeBeneficiaryMethod).
  cbv beta iota.
  unfold Arguments_Pack.
  change (method_inputs cashChequeBeneficiaryMethod)
    with [ mkArgument "recipient" AddressTy;
           mkArgument "cumulativePayout" (UintTy 256);
           mkArgument "signature" BytesTy ].
  cbn [length Nat.eqb negb fold_left getTypeSize arg_type Nat.add
       pack_loop pack isDynamicType app].
  rewrite <- !app_assoc. reflexivity.
Qed.

(** The request, one ledger query at a time. *)
Lemma CashChequeBeneficiaryRequest_steps {W : Type} (backend : EthBackend W)
    (to recipient : Address) (cheque : ChequeParams) (ownerSig : list byte)
    (w : W) :
  CashChequeBeneficiaryRequest backend to recipient cheque ownerSig w
  = match PendingNonceAt backend (Beneficiary cheque) w with
    | (Err e, w1) => (Err e, w1)
    | (Ok nonce, w1) =>
        match SuggestGasPrice backend w1 with
        | (Err e, w2) => (Err e, w2)
        | (Ok gasPrice, w2) =>
            (Ok (NewTransaction nonce to 0 1000000 gasPrice
                   (packedCall recipient (int64 (CumulativePayout cheque)) ownerSig)),
             w2)
        end
    end.
Proof.
  unfold CashChequeBeneficiaryRequest, bind, lift, ret, big_NewInt.
  rewrite JSON_ERC20SimpleSwapABI, Pack_cashChequeBeneficiary.
  destruct (PendingNonceAt backend (Beneficiary cheque) w) as [[nonce|e] w1];
    [|reflexivity].
  destruct (SuggestGasPrice backend w1) as [[gasPrice|e] w2]; reflexivity.
Qed.

(** *** Reading packed arguments back *)

Lemma Address_eq (a b : Address) : address_bytes a = address_bytes b -> a = b.
Proof.
  destruct a as [xs Hx], b as [ys Hy]. cbn. intros E. subst ys.
  f_equal. apply Eqdep_dec.UIP_dec. apply Nat.eq_dec.
Qed.

Lemma firstn_app_exact {A : Type} (n : nat) (xs ys : list A) :
  length xs = n -> firstn n (xs ++ ys) = xs.
Proof.
  intros <-. rewrite firstn_app, Nat.sub_diag, firstn_all. cbn. apply app_nil_r.
Qed.

Lemma skipn_app_exact {A : Type} (n : nat) (xs ys : list A) :
  length xs = n -> skipn n (xs ++ ys) = ys.
Proof.
  intros <-. rewrite skipn_app, Nat.sub_diag, skipn_all. reflexivity.
Qed.

Lemma slice_app_skip (xs ys : list byte) (n lo hi : nat) :
  length xs = n -> slice (xs ++ ys) (n + lo) (n + hi) = slice ys lo hi.
Proof.
  intros H. unfold slice.
  replace (n + hi - (n + lo))%nat with (hi - lo)%nat by lia.
  rewrite Nat.add_comm, <- skipn_skipn, (skipn_app_exact n) by exact H.
  reflexivity.
Qed.

Lemma slice_app_head (xs ys : list byte) (n : nat) :
  length xs = n -> slice (xs ++ ys) 0 n = xs.
Proof.
  intros H. unfold slice. rewrite Nat.sub_0_r. cbn [skipn].
  now apply firstn_app_exact.
Qed.

Lemma BytesToAddress_LeftPadBytes (a : Address) :
  BytesToAddress (LeftPadBytes (Address_Bytes a) 32) = a.
Proof.
  apply Address_eq. cbn [BytesToAddress address_bytes].
  unfold BytesToAddress_bytes, LeftPadBytes, Address_Bytes.
  rewrite (address_len a). cbn [AddressLength Nat.leb Nat.sub].
  rewrite length_app, make_length, (address_len a).
  cbn [AddressLength Nat.add Nat.sub].
  rewrite (skipn_app_exact 12) by apply make_length.
  rewrite (address_len a). cbn [AddressLength Nat.sub]. reflexivity.
Qed.

Lemma packNum_length (z : Z) : length (packNum z) = 32%nat.
Proof. apply Z_to_be_length. Qed.

Lemma U256_mod (z : Z) : U256 z = z mod 256 ^ Z.of_nat 32.
Proof. unfold U256. rewrite Z.land_ones by lia. reflexivity. Qed.

Lemma be_to_Z_packNum (z : Z) : be_to_Z (packNum z) = U256 z.
Proof.
  unfold packNum, U256Bytes. rewrite be_to_Z_to_be, U256_mod.
  apply Z.mod_mod. apply Z.pow_nonzero; lia.
Qed.

Lemma packNum_Z_to_be (z : Z) : packNum z = Z_to_be 32 z.
Proof. unfold packNum, U256Bytes. rewrite U256_mod. apply Z_to_be_mod. Qed.

(** The padded length is the length rounded up to a multiple of 32. *)
Lemma RightPadBytes_round (bs : list byte) :
  RightPadBytes bs ((length bs + 31) / 32 * 32)
  = bs ++ make ((32 - length bs mod 32) mod 32).
Proof.
  unfold RightPadBytes.
  pose proof (Nat.div_mod_eq (length bs) 32) as Hd.
  pose proof (Nat.mod_upper_bound (length bs) 32 ltac:(lia)) as Hm.
  destruct (Nat.eq_dec (length bs mod 32) 0) as [E|E].
  - assert (Hk : ((length bs + 31) / 32 * 32 = length bs)%nat).
    { rewrite E, Nat.add_0_r in Hd. rewrite Hd at 1.
      rewrite (Nat.mul_comm 32), Nat.div_add_l by lia.
      change (31 / 32)%nat with 0%nat. lia. }
    rewrite Hk, Nat.leb_refl, E. cbn. now rewrite app_nil_r.
  - assert (Hk : ((length bs + 31) / 32 * 32
                  = length bs + (32 - length bs mod 32))%nat).
    { rewrite Hd at 1.
      replace (32 * (length bs / 32) + length bs mod 32 + 31)%nat
        with ((length bs / 32 + 1) * 32 + (length bs mod 32 - 1))%nat by lia.
      rewrite Nat.div_add_l, (Nat.div_small (length bs mod 32 - 1)) by lia. lia. }
    rewrite Hk.
    destruct (Nat.leb_spec (length bs + (32 - length bs mod 32)) (length bs));
      [lia|].
    rewrite (Nat.mod_small (32 - length bs mod 32)) by lia. f_equal. f_equal. lia.
Qed.

Lemma firstn_RightPadBytes (bs : list byte) (l : nat) :
  firstn (length bs) (RightPadBytes bs l) = bs.
Proof.
  unfold RightPadBytes. destruct (l <=? length bs)%nat.
  - apply firstn_all.
  - now apply firstn_app_exact.
Qed.

Lemma RightPadBytes_length_ge (bs : list byte) (l : nat) :
  (length bs <= length (RightPadBytes bs l))%nat.
Proof.
  unfold RightPadBytes. destruct (l <=? length bs)%nat; [lia|].
  rewrite length_app. lia.
Qed.

(** Unpacking a head of three slots followed by one dynamic value. *)
Lemma unpack_three_slots (A N O L P : list byte) (len : nat) :
  length A = 32%nat -> length N = 32%nat ->
  length O = 32%nat -> length L = 32%nat ->
  be_to_Z O = 96 -> be_to_Z L = Z.of_nat len -> (len <= length P)%nat ->
  unpack_loop (method_inputs cashChequeBeneficiaryMethod) 0
    (A ++ N ++ O ++ L ++ P)
  = Ok [VAddress (BytesToAddress A); VBigInt (be_to_Z N); VBytes (firstn len P)].
Proof.
  intros HA HN HO HL HvO HvL Hlen.
  set (data := A ++ N ++ O ++ L ++ P).
  assert (Hd : length data = (128 + length P)%nat).
  { subst data. rewrite !length_app. lia. }
  assert (S0 : slice data 0 32 = A) by (subst data; now apply slice_app_head).
  assert (S1 : slice data 32 64 = N).
  { subst data.
    rewrite (slice_app_skip A _ 32 0 32 HA). now apply slice_app_head. }
  assert (S2 : slice data 64 96 = O).
  { subst data.
    rewrite (slice_app_skip A _ 32 32 64 HA), (slice_app_skip N _ 32 0 32 HN).
    now apply slice_app_head. }
  assert (S3 : slice data 96 128 = L).
  { subst data.
    rewrite (slice_app_skip A _ 32 64 96 HA), (slice_app_skip N _ 32 32 64 HN),
      (slice_app_skip O _ 32 0 32 HO).
    now apply slice_app_head. }
  assert (S4 : slice data 128 (128 + len) = firstn len P).
  { subst data. unfold slice.
    replace (128 + len - 128)%nat with len by lia.
    rewrite !app_assoc. rewrite (skipn_app_exact 128); [reflexivity|].
    rewrite !length_app. lia. }
  assert (T0 : toGoType 0 AddressTy data = Ok (VAddress (BytesToAddress A))).
  { unfold toGoType. rewrite Hd.
    destruct (Nat.ltb_spec (128 + length P) (0 + 32)); [lia|].
    change (0 + 32)%nat with 32%nat. now rewrite S0. }
  assert (T1 : toGoType 32 (UintTy 256) data = Ok (VBigInt (be_to_Z N))).
  { unfold toGoType. rewrite Hd.
    destruct (Nat.ltb_spec (128 + length P) (32 + 32)); [lia|].
    change (32 + 32)%nat with 64%nat. now rewrite S1. }
  assert (T2 : toGoType 64 BytesTy data = Ok (VBytes (firstn len P))).
  { unfold toGoType. rewrite Hd.
    destruct (Nat.ltb_spec (128 + length P) (64 + 32)); [lia|].
    unfold lengthPrefixPointsTo. change (64 + 32)%nat with 96%nat.
    rewrite S2, HvO, Hd. change (96 + 32) with 128.
    destruct (Z.ltb_spec (Z.of_nat (128 + length P)) 128); [lia|].
    change (Z.to_nat 128) with 128%nat. change (128 - 32)%nat with 96%nat.
    rewrite S3, HvL.
    destruct (Z.ltb_spec (Z.of_nat (128 + length P)) (128 + Z.of_nat len)); [lia|].
    rewrite Nat2Z.id, S4. reflexivity. }
  change (method_inputs cashChequeBeneficiaryMethod)
    with [ mkArgument "recipient" AddressTy;
           mkArgument "cumulativePayout" (UintTy 256);
           mkArgument "signature" BytesTy ].
  cbn [unpack_loop arg_type]. change (0 * 32)%nat with 0%nat.
  change (1 * 32)%nat with 32%nat. change (2 * 32)%nat with 64%nat.
  rewrite T0, T1, T2. reflexivity.
Qed.

(** Decoding the packed call gives back the recipient and the signature,
    and the payout as the unsigned 256-bit number that was written. *)
Lemma UnpackInput_packedCall (recipient : Address) (payout : Z)
    (ownerSig : list byte) :
  Z.of_nat (length ownerSig) < 2 ^ 256 ->
  UnpackInput cashChequeBeneficiaryMethod (packedCall recipient payout ownerSig)
  = Ok [VAddress recipient; VBigInt (U256 payout); VBytes ownerSig].
Proof.
  intros Hs. unfold UnpackInput, packedCall.
  change (method_ID cashChequeBeneficiaryMethod) with [x0d; x5f; x26; x59].
  cbn [app firstn skipn Equal Byte.eqb negb andb].
  change (Equal [x0d; x5f; x26; x59] [x0d; x5f; x26; x59]) with true.
  cbv beta iota. unfold packBytesSlice.
  rewrite (unpack_three_slots _ _ _ _ _ (length ownerSig)).
  - rewrite BytesToAddress_LeftPadBytes, be_to_Z_packNum, firstn_RightPadBytes.
    reflexivity.
  - unfold LeftPadBytes, Address_Bytes. rewrite (address_len recipient).
    cbn [AddressLength Nat.leb Nat.sub]. rewrite length_app, make_length.
    rewrite (address_len recipient). reflexivity.
  - apply packNum_length.
  - apply packNum_length.
  - apply packNum_length.
  - reflexivity.
  - rewrite be_to_Z_packNum, U256_mod. apply Z.mod_small.
    change (256 ^ Z.of_nat 32) with (2 ^ 256). lia.
  - apply RightPadBytes_length_ge.
Qed.

Lemma U256_int64_small (payout : Z) :
  0 <= payout < 2 ^ 63 -> U256 (int64 payout) = payout.
Proof.
  intros H. unfold int64. rewrite Z.mod_small by lia.
  destruct (Z.ltb_spec payout (2 ^ 63)); [|lia].
  rewrite U256_mod. apply Z.mod_small.
  change (256 ^ Z.of_nat 32) with (2 ^ 256). lia.
Qed.

Lemma U256_int64_large (payout : Z) :
  2 ^ 63 <= payout < 2 ^ 64 ->
  U256 (int64 payout) = 2 ^ 256 - 2 ^ 64 + payout.
Proof.
  intros H. unfold int64. rewrite Z.mod_small by lia.
  destruct (Z.ltb_spec payout (2 ^ 63)); [lia|].
  rewrite U256_mod. change (256 ^ Z.of_nat 32) with (2 ^ 256).
  replace (payout - 2 ^ 64) with (2 ^ 256 - 2 ^ 64 + payout + (-1) * 2 ^ 256) by lia.
  rewrite Z.mod_add by lia. apply Z.mod_small. lia.
Qed.

(** *** The request on the sample ledger client *)

Lemma run_tx100 :
  CashChequeBeneficiaryRequest Sample.counting Sample.addrC Sample.rec
    Sample.cheque100 [x01; x02] 0%nat
  = (Ok Run.tx100, 2%nat).
Proof. vm_compute. reflexivity. Defined.

(** A successful request took exactly the two queries, in order, and
    assembled the transaction from their answers. *)
Lemma CashChequeBeneficiaryRequest_ok {W : Type} (backend : EthBackend W)
    (to recipient : Address) (cheque : ChequeParams) (ownerSig : list byte)
    (w w' : W) (tx : Transaction) :
  CashChequeBeneficiaryRequest backend to recipient cheque ownerSig w = (Ok tx, w') ->
  exists nonce w1 gasPrice,
    PendingNonceAt backend (Beneficiary cheque) w = (Ok nonce, w1)
    /\ SuggestGasPrice backend w1 = (Ok gasPrice, w')
    /\ tx = NewTransaction nonce to 0 1000000 gasPrice
              (packedCall recipient (int64 (CumulativePayout cheque)) ownerSig).
Proof.
  rewrite CashChequeBeneficiaryRequest_steps.
  destruct (PendingNonceAt backend (Beneficiary cheque) w) as [[nonce|e] w1] eqn:Hn;
    [|discriminate].
  destruct (SuggestGasPrice backend w1) as [[gasPrice|e] w2] eqn:Hg; [|discriminate].
  intros H. inversion H; subst. now exists nonce, w1, gasPrice.
Qed.

(** C5: for a payout of 100 the call data is the four-byte selector of
    [cashChequeBeneficiary(address,uint256,bytes)], the recipient left-padded
    to 32 bytes, 100 as a 32-byte big-endian number, and the signature as a
    dynamic field: the offset word 96, the length word, the bytes padded
    with zeros to a multiple of 32. *)
Theorem cashout_calldata_layout {W : Type} (backend : EthBackend W)
    (C B : Address) (cheque : ChequeParams) (S : list byte)
    (w w' : W) (tx : Transaction) :
  CumulativePayout cheque = 100 ->
  CashChequeBeneficiaryRequest backend C B cheque S w = (Ok tx, w') ->
  Data tx
  = firstn 4 (Keccak.Keccak256
                (of_string "cashChequeBeneficiary(address,uint256,bytes)"))
      ++ (repeat x00 12 ++ Address_Bytes B)
      ++ (repeat x00 31 ++ [x64])
      ++ (repeat x00 31 ++ [x60])
      ++ Z_to_be 32 (Z.of_nat (length S))
      ++ S ++ repeat x00 ((32 - length S mod 32) mod 32).
Proof.
  intros Hp Hrun.
  apply CashChequeBeneficiaryRequest_ok in Hrun.
  destruct Hrun as (nonce & w1 & gasPrice & _ & _ & ->).
  cbn [Data NewTransaction]. rewrite Hp. unfold packedCall.
  rewrite <- cashChequeBeneficiary_selector.
  change (packNum (int64 100)) with (repeat x00 31 ++ [x64]).
  change (packNum 96) with (repeat x00 31 ++ [x60]).
  unfold packBytesSlice.
  rewrite packNum_Z_to_be, RightPadBytes_round, <- app_assoc.
  unfold LeftPadBytes, Address_Bytes. rewrite (address_len B).
  reflexivity.
Qed.

Lemma cashout_calldata_layout_witness :
  Data Run.tx100
  = [x0d; x5f; x26; x59]
      ++ (repeat x00 12 ++ Address_Bytes Sample.rec)
      ++ (repeat x00 31 ++ [x64])
      ++ (repeat x00 31 ++ [x60])
      ++ (repeat x00 31 ++ [x02])
      ++ [x01; x02] ++ repeat x00 30.
Proof.
  exact (cashout_calldata_layout Sample.counting Sample.addrC Sample.rec
           Sample.cheque100 [x01; x02] 0%nat 2%nat Run.tx100 eq_refl run_tx100).
Defined.

(** C7: a successful request returns a transaction that transfers no value,
    carries the packed call as its data, is addressed to the target
    contract, uses the nonce and the fee price the ledger client answered,
    and has the gas limit 1000000. *)
Theorem request_transaction_fields {W : Type} (backend : EthBackend W)
    (to recipient : Address) (cheque : ChequeParams) (ownerSig : list byte)
    (w w' : W) (tx : Transaction) :
  CashChequeBeneficiaryRequest backend to recipient cheque ownerSig w = (Ok tx, w') ->
  exists abi callData nonce w1 gasPrice,
    Abi.JSON ERC20SimpleSwapABI = Ok abi
    /\ Abi.Pack abi "cashChequeBeneficiary"
         [ VAddress recipient;
           VBigInt (big_NewInt (int64 (CumulativePayout cheque)));
           VBytes ownerSig ] = Ok callData
    /\ PendingNonceAt backend (Beneficiary cheque) w = (Ok nonce, w1)
    /\ SuggestGasPrice backend w1 = (Ok gasPrice, w')
    /\ Value tx = 0
    /\ Data tx = callData
    /\ To tx = Some to
    /\ Nonce tx = nonce
    /\ GasPrice tx = gasPrice
    /\ Gas tx = 1000000.
Proof.
  intros Hrun.
  apply CashChequeBeneficiaryRequest_ok in Hrun.
  destruct Hrun as (nonce & w1 & gasPrice & Hn & Hg & ->).
  exists [("cashChequeBeneficiary"%string, cashChequeBeneficiaryMethod)],
    (packedCall recipient (int64 (CumulativePayout cheque)) ownerSig),
    nonce, w1, gasPrice.
  split; [apply JSON_ERC20SimpleSwapABI|].
  split; [apply Pack_cashChequeBeneficiary|].
  repeat split; assumption.
Qed.

Lemma request_transaction_fields_witness :
  exists abi callData nonce w1 gasPrice,
    Abi.JSON ERC20SimpleSwapABI = Ok abi
    /\ Abi.Pack abi "cashChequeBeneficiary"
         [ VAddress Sample.rec; VBigInt (big_NewInt (int64 100)); VBytes [x01; x02] ]
       = Ok callData
    /\ PendingNonceAt Sample.counting Sample.addrB 0%nat = (Ok nonce, w1)
    /\ SuggestGasPrice Sample.counting w1 = (Ok gasPrice, 2%nat)
    /\ Value Run.tx100 = 0
    /\ Data Run.tx100 = callData
    /\ To Run.tx100 = Some Sample.addrC
    /\ Nonce Run.tx100 = nonce
    /\ GasPrice Run.tx100 = gasPrice
    /\ Gas Run.tx100 = 1000000.
Proof.
  exact (request_transaction_fields Sample.counting Sample.addrC Sample.rec
           Sample.cheque100 [x01; x02] 0%nat 2%nat Run.tx100 run_tx100).
Defined.

(** C10: the nonce of the built transaction is the pending nonce the ledger
    client reports for the beneficiary of the cheque; the request has no
    other account to ask about. *)
Theorem request_nonce_is_beneficiary_nonce {W : Type} (backend : EthBackend W)
    (to recipient : Address) (cheque : ChequeParams) (ownerSig : list byte)
    (w w' : W) (tx : Transaction) :
  CashChequeBeneficiaryRequest backend to recipient cheque ownerSig w = (Ok tx, w') ->
  exists w1,
    PendingNonceAt backend (Beneficiary cheque) w = (Ok (Nonce tx), w1).
Proof.
  intros Hrun.
  apply CashChequeBeneficiaryRequest_ok in Hrun.
  destruct Hrun as (nonce & w1 & gasPrice & Hn & _ & ->).
  exists w1. exact Hn.
Qed.

Lemma request_nonce_is_beneficiary_nonce_witness :
  (exists w1,
     PendingNonceAt Sample.counting Sample.addrB 0%nat = (Ok (Nonce Run.tx100), w1))
  /\ Nonce Run.tx100 = 7
  /\ fst (PendingNonceAt Sample.counting Sample.rec 0%nat) = Ok 0
  /\ fst (PendingNonceAt Sample.counting Sample.addrC 0%nat) = Ok 0.
Proof.
  split.
  - exact (request_nonce_is_beneficiary_nonce Sample.counting Sample.addrC
             Sample.rec Sample.cheque100 [x01; x02] 0%nat 2%nat Run.tx100
             run_tx100).
  - repeat split; reflexivity.
Defined.

(** C8: a failing nonce query or fee-price query ends the request with that
    very error and no transaction, after that one query and no further one;
    and the request fails exactly when packing, the nonce query or the
    fee-price query fails. *)
Theorem request_error_propagation {W : Type} (backend : EthBackend W)
    (to recipient : Address) (cheque : ChequeParams) (ownerSig : list byte)
    (w : W) :
  let request := CashChequeBeneficiaryRequest backend to recipient cheque ownerSig w in
  let packing :=
    rbind (Abi.JSON ERC20SimpleSwapABI) (fun abi =>
      Abi.Pack abi "cashChequeBeneficiary"
        [ VAddress recipient;
          VBigInt (big_NewInt (int64 (CumulativePayout cheque)));
          VBytes ownerSig ]) in
  (forall e w1,
      PendingNonceAt backend (Beneficiary cheque) w = (Err e, w1) ->
      request = (Err e, w1))
  /\ (forall nonce w1 e w2,
         PendingNonceAt backend (Beneficiary cheque) w = (Ok nonce, w1) ->
         SuggestGasPrice backend w1 = (Err e, w2) ->
         request = (Err e, w2))
  /\ (is_err (fst request) = true
      <-> (is_err packing = true
           \/ is_err (fst (PendingNonceAt backend (Beneficiary cheque) w)) = true
           \/ exists nonce w1,
                PendingNonceAt backend (Beneficiary cheque) w = (Ok nonce, w1)
                /\ is_err (fst (SuggestGasPrice backend w1)) = true)).
Proof.
  intros request packing. subst request packing.
  rewrite CashChequeBeneficiaryRequest_steps.
  rewrite JSON_ERC20SimpleSwapABI. cbn [rbind].
  unfold big_NewInt. rewrite Pack_cashChequeBeneficiary.
  split; [|split].
  - intros e w1 Hn. rewrite Hn. reflexivity.
  - intros nonce w1 e w2 Hn Hg. rewrite Hn, Hg. reflexivity.
  - destruct (PendingNonceAt backend (Beneficiary cheque) w) as [[nonce|e] w1] eqn:Hn.
    + destruct (SuggestGasPrice backend w1) as [[gasPrice|e] w2] eqn:Hg; cbn.
      * split; [discriminate|].
        intros [H|[H|(n & w0 & Heq & H)]]; try discriminate.
        inversion Heq; subst. rewrite Hg in H. discriminate.
      * split; [|reflexivity].
        intros _. right. right. exists nonce, w1. rewrite Hg. now split.
    + cbn. split; [|reflexivity]. intros _. right. now left.
Qed.

Lemma request_error_propagation_witness :
  CashChequeBeneficiaryRequest Sample.nonceDown Sample.addrC Sample.rec
    Sample.cheque100 [x01; x02] 0%nat
  = (Err "nonce unavailable", 1%nat)
  /\ CashChequeBeneficiaryRequest Sample.priceDown Sample.addrC Sample.rec
       Sample.cheque100 [x01; x02] 0%nat
     = (Err "price unavailable", 2%nat).
Proof.
  split.
  - exact (proj1 (request_error_propagation Sample.nonceDown Sample.addrC
                    Sample.rec Sample.cheque100 [x01; x02] 0%nat)
             "nonce unavailable"%string 1%nat eq_refl).
  - exact (proj1 (proj2 (request_error_propagation Sample.priceDown Sample.addrC
                           Sample.rec Sample.cheque100 [x01; x02] 0%nat))
             7 1%nat "price unavailable"%string 2%nat eq_refl eq_refl).
Defined.

(** Packing never fails on the arguments of the request. *)
Lemma request_packing_succeeds (recipient : Address) (cheque : ChequeParams)
    (ownerSig : list byte) :
  is_err (rbind (Abi.JSON ERC20SimpleSwapABI) (fun abi =>
            Abi.Pack abi "cashChequeBeneficiary"
              [ VAddress recipient;
                VBigInt (big_NewInt (int64 (CumulativePayout cheque)));
                VBytes ownerSig ])) = false.
Proof.
  rewrite JSON_ERC20SimpleSwapABI. cbn [rbind].
  unfold big_NewInt. now rewrite Pack_cashChequeBeneficiary.
Qed.

(** *** The payout in the call data *)

(** Below 2^63 the call data decodes to the recipient, the payout and the
    signature that went in. *)
Lemma cashout_calldata_roundtrip_below_2_63 {W : Type} (backend : EthBackend W)
    (to recipient : Address) (cheque : ChequeParams) (ownerSig : list byte)
    (w w' : W) (tx : Transaction) :
  0 <= CumulativePayout cheque < 2 ^ 63 ->
  Z.of_nat (length ownerSig) < 2 ^ 256 ->
  CashChequeBeneficiaryRequest backend to recipient cheque ownerSig w = (Ok tx, w') ->
  UnpackInput cashChequeBeneficiaryMethod (Data tx)
  = Ok [VAddress recipient; VBigInt (CumulativePayout cheque); VBytes ownerSig].
Proof.
  intros Hp Hs Hrun.
  apply CashChequeBeneficiaryRequest_ok in Hrun.
  destruct Hrun as (nonce & w1 & gasPrice & _ & _ & ->).
  cbn [Data NewTransaction].
  rewrite UnpackInput_packedCall by exact Hs.
  now rewrite U256_int64_small.
Qed.

(** From 2^63 on, [int64] makes the payout negative and the call data
    carries its two's complement. *)
Lemma cashout_calldata_payout_from_2_63 {W : Type} (backend : EthBackend W)
    (to recipient : Address) (cheque : ChequeParams) (ownerSig : list byte)
    (w w' : W) (tx : Transaction) :
  2 ^ 63 <= CumulativePayout cheque < 2 ^ 64 ->
  Z.of_nat (length ownerSig) < 2 ^ 256 ->
  CashChequeBeneficiaryRequest backend to recipient cheque ownerSig w = (Ok tx, w') ->
  UnpackInput cashChequeBeneficiaryMethod (Data tx)
  = Ok [ VAddress recipient;
         VBigInt (2 ^ 256 - 2 ^ 64 + CumulativePayout cheque);
         VBytes ownerSig ].
Proof.
  intros Hp Hs Hrun.
  apply CashChequeBeneficiaryRequest_ok in Hrun.
  destruct Hrun as (nonce & w1 & gasPrice & _ & _ & ->).
  cbn [Data NewTransaction].
  rewrite UnpackInput_packedCall by exact Hs.
  now rewrite U256_int64_large.
Qed.

(** C4, at the payout 2^63 and the empty signature: the request succeeds,
    the signed encoding carries 2^63, and the call data decodes to the
    payout 2^256 - 2^63 instead of 2^63. *)
Theorem cashout_calldata_roundtrip_fails_at_2_63 :
  uint64_range (CumulativePayout Run.chequeTopBit)
  /\ be_to_Z (skipn 40 (encodeForSignature Run.chequeTopBit)) = 2 ^ 63
  /\ exists tx w',
       CashChequeBeneficiaryRequest Sample.counting Sample.addrC Sample.rec
         Run.chequeTopBit [] 0%nat = (Ok tx, w')
       /\ UnpackInput cashChequeBeneficiaryMethod (Data tx)
          = Ok [VAddress Sample.rec; VBigInt (2 ^ 256 - 2 ^ 63); VBytes []]
       /\ UnpackInput cashChequeBeneficiaryMethod (Data tx)
          <> Ok [ VAddress Sample.rec;
                  VBigInt (CumulativePayout Run.chequeTopBit);
                  VBytes [] ].
Proof.
  assert (Hr : uint64_range (CumulativePayout Run.chequeTopBit))
    by (unfold uint64_range; cbn; lia).
  split; [exact Hr|].
  split; [vm_compute; reflexivity|].
  destruct (CashChequeBeneficiaryRequest Sample.counting Sample.addrC Sample.rec
              Run.chequeTopBit [] 0%nat) as [[tx|e] w'] eqn:Hrun.
  - exists tx, w'. split; [reflexivity|].
    assert (Hd : UnpackInput cashChequeBeneficiaryMethod (Data tx)
                 = Ok [VAddress Sample.rec; VBigInt (2 ^ 256 - 2 ^ 63); VBytes []]).
    { assert (Hp : 2 ^ 63 <= CumulativePayout Run.chequeTopBit < 2 ^ 64)
        by (cbn; lia).
      assert (Hs : Z.of_nat (length (@nil byte)) < 2 ^ 256) by (cbn; lia).
      rewrite (cashout_calldata_payout_from_2_63 _ _ _ _ _ _ _ _ Hp Hs Hrun).
      reflexivity. }
    split; [exact Hd|].
    rewrite Hd. intros H. inversion H.
  - rewrite CashChequeBeneficiaryRequest_steps in Hrun. discriminate.
Qed.

(** * Further properties of the cheque model and of the request *)

Lemma app_inv_same_length {A : Type} (xs xs' ys ys' : list A) :
  length xs = length xs' -> xs ++ ys = xs' ++ ys' -> xs = xs' /\ ys = ys'.
Proof.
  intros Hl He. split.
  - apply (f_equal (firstn (length xs))) in He.
    rewrite (firstn_app_exact (length xs)) in He by reflexivity.
    rewrite (firstn_app_exact (length xs)) in He by (symmetry; exact Hl).
    exact He.
  - apply (f_equal (skipn (length xs))) in He.
    rewrite (skipn_app_exact (length xs)) in He by reflexivity.
    rewrite (skipn_app_exact (length xs)) in He by (symmetry; exact Hl).
    exact He.
Qed.

Lemma Z_to_be_inj (n : nat) (a b : Z) :
  0 <= a < 256 ^ Z.of_nat n -> 0 <= b < 256 ^ Z.of_nat n ->
  Z_to_be n a = Z_to_be n b -> a = b.
Proof.
  intros Ha Hb He. apply (f_equal be_to_Z) in He.
  rewrite !be_to_Z_to_be, !Z.mod_small in He by assumption. exact He.
Qed.

(** X1: two cheques with payouts in the range of [uint64] that have the same
    encoding are the same cheque: contract, beneficiary and payout can each
    be read off the encoding. *)
Theorem encodeForSignature_injective (c1 c2 : ChequeParams) :
  uint64_range (CumulativePayout c1) ->
  uint64_range (CumulativePayout c2) ->
  encodeForSignature c1 = encodeForSignature c2 ->
  c1 = c2.
Proof.
  intros H1 H2 He. rewrite !encodeForSignature_layout in He.
  apply app_inv_same_length in He;
    [|unfold Address_Bytes; now rewrite !address_len].
  destruct He as [HC He].
  apply app_inv_same_length in He;
    [|unfold Address_Bytes; now rewrite !address_len].
  destruct He as [HB He].
  apply app_inv_same_length in He; [|reflexivity].
  destruct He as [_ HP].
  apply Z_to_be_inj in HP; try now apply uint64_range_256.
  destruct c1 as [C1 B1 p1], c2 as [C2 B2 p2]. cbn in *.
  apply Address_eq in HC. apply Address_eq in HB. now subst.
Qed.

Lemma encodeForSignature_injective_witness :
  Sample.cheque100
  = mkChequeParams (mkAddress (repeat xc0 20) eq_refl)
                   (mkAddress (repeat xb0 20) eq_refl) (99 + 1).
Proof.
  apply encodeForSignature_injective.
  - unfold uint64_range. cbn. lia.
  - unfold uint64_range. cbn. lia.
  - reflexivity.
Defined.

(** X2: for a payout below 2^63 and a signature of any length, decoding the
    call data of the built transaction gives back the recipient, the payout
    and the signature. *)
Theorem calldata_round_trip_below_2_63 {W : Type} (backend : EthBackend W)
    (to recipient : Address) (cheque : ChequeParams) (ownerSig : list byte)
    (w w' : W) (tx : Transaction) :
  0 <= CumulativePayout cheque < 2 ^ 63 ->
  Z.of_nat (length ownerSig) < 2 ^ 256 ->
  CashChequeBeneficiaryRequest backend to recipient cheque ownerSig w = (Ok tx, w') ->
  UnpackInput cashChequeBeneficiaryMethod (Data tx)
  = Ok [VAddress recipient; VBigInt (CumulativePayout cheque); VBytes ownerSig].
Proof.
  intros Hp Hs Hrun.
  apply CashChequeBeneficiaryRequest_ok in Hrun.
  destruct Hrun as (nonce & w1 & gasPrice & _ & _ & ->).
  cbn [Data NewTransaction].
  rewrite UnpackInput_packedCall by exact Hs.
  now rewrite U256_int64_small.
Qed.

Lemma calldata_round_trip_below_2_63_witness :
  UnpackInput cashChequeBeneficiaryMethod (Data Run.tx100)
  = Ok [VAddress Sample.rec; VBigInt 100; VBytes [x01; x02]].
Proof.
  apply (calldata_round_trip_below_2_63 Sample.counting Sample.addrC Sample.rec
           Sample.cheque100 [x01; x02] 0%nat 2%nat Run.tx100).
  - cbn. lia.
  - cbn. lia.
  - exact run_tx100.
Defined.

Lemma packedCall_payout_word (recipient : Address) (payout : Z)
    (ownerSig : list byte) :
  slice (packedCall recipient payout ownerSig) 36 68 = packNum payout.
Proof.
  unfold packedCall.
  rewrite (slice_app_skip (method_ID cashChequeBeneficiaryMethod) _ 4 32 64)
    by reflexivity.
  rewrite (slice_app_skip (LeftPadBytes (Address_Bytes recipient) 32) _ 32 0 32).
  - apply slice_app_head. apply packNum_length.
  - unfold LeftPadBytes, Address_Bytes. rewrite (address_len recipient).
    cbn [AddressLength Nat.leb Nat.sub]. rewrite length_app, make_length.
    now rewrite (address_len recipient).
Qed.

(** X3: the payout word of the call data (bytes 36 to 67) is the payout word
    of the signed encoding (its last 32 bytes) exactly when the payout is
    below 2^63. *)
Theorem calldata_payout_word_matches_signed_encoding {W : Type}
    (backend : EthBackend W) (to recipient : Address) (cheque : ChequeParams)
    (ownerSig : list byte) (w w' : W) (tx : Transaction) :
  uint64_range (CumulativePayout cheque) ->
  CashChequeBeneficiaryRequest backend to recipient cheque ownerSig w = (Ok tx, w') ->
  (slice (Data tx) 36 68 = skipn 40 (encodeForSignature cheque)
   <-> CumulativePayout cheque < 2 ^ 63).
Proof.
  intros Hr Hrun.
  apply CashChequeBeneficiaryRequest_ok in Hrun.
  destruct Hrun as (nonce & w1 & gasPrice & _ & _ & ->).
  cbn [Data NewTransaction].
  rewrite packedCall_payout_word.
  rewrite (encodeForSignature_canonical cheque Hr).
  unfold canonicalEncoding. rewrite skipn_40_addresses.
  unfold packNum, U256Bytes.
  assert (H256 : 256 ^ Z.of_nat 32 = 2 ^ 256) by reflexivity.
  unfold uint64_range in Hr.
  destruct (Z.lt_ge_cases (CumulativePayout cheque) (2 ^ 63)) as [Hs|Hl].
  - rewrite U256_int64_small by lia. split; [intros _; exact Hs | reflexivity].
  - rewrite U256_int64_large by lia. split; [|lia].
    intros He. apply Z_to_be_inj in He; rewrite ?H256; lia.
Qed.

Lemma calldata_payout_word_matches_signed_encoding_witness :
  slice (Data Run.tx100) 36 68 = skipn 40 (encodeForSignature Sample.cheque100)
  <-> 100 < 2 ^ 63.
Proof.
  apply (calldata_payout_word_matches_signed_encoding Sample.counting
           Sample.addrC Sample.rec Sample.cheque100 [x01; x02] 0%nat 2%nat
           Run.tx100).
  - unfold uint64_range. cbn. lia.
  - exact run_tx100.
Defined.



Lemma RightPadBytes_length (bs : list byte) (l : nat) :
  length (RightPadBytes bs l) = Nat.max (length bs) l.
Proof.
  unfold RightPadBytes. destruct (Nat.leb_spec l (length bs)).
  - lia.
  - rewrite length_app, make_length. lia.
Qed.

(** X5: the call data of the built transaction is 132 bytes (selector, three
    head words and the length word) followed by the signature padded to
    whole 32-byte words. *)
Theorem calldata_length {W : Type} (backend : EthBackend W)
    (to recipient : Address) (cheque : ChequeParams) (ownerSig : list byte)
    (w w' : W) (tx : Transaction) :
  CashChequeBeneficiaryRequest backend to recipient cheque ownerSig w = (Ok tx, w') ->
  length (Data tx) = (132 + 32 * ((length ownerSig + 31) / 32))%nat.
Proof.
  intros Hrun.
  apply CashChequeBeneficiaryRequest_ok in Hrun.
  destruct Hrun as (nonce & w1 & gasPrice & _ & _ & ->).
  cbn [Data NewTransaction]. unfold packedCall, packBytesSlice.
  rewrite !length_app, !packNum_length, RightPadBytes_length.
  change (length (method_ID cashChequeBeneficiaryMethod)) with 4%nat.
  unfold LeftPadBytes, Address_Bytes. rewrite (address_len recipient).
  cbn [AddressLength Nat.leb Nat.sub]. rewrite length_app, make_length.
  rewrite (address_len recipient). unfold AddressLength.
  pose proof (Nat.div_mod_eq (length ownerSig + 31) 32) as Hd.
  pose proof (Nat.mod_upper_bound (length ownerSig + 31) 32 ltac:(lia)) as Hm.
  lia.
Qed.

Lemma calldata_length_witness :
  length (Data Run.tx100) = (132 + 32 * ((2 + 31) / 32))%nat.
Proof.
  exact (calldata_length Sample.counting Sample.addrC Sample.rec
           Sample.cheque100 [x01; x02] 0%nat 2%nat Run.tx100 run_tx100).
Defined.

(** X15: the request validates nothing.  Whenever the two ledger queries
    succeed it returns a transaction, for every target, recipient and
    cheque, and for a signature of any length, the empty one included. *)
Theorem request_succeeds_when_queries_succeed {W : Type} (backend : EthBackend W)
    (to recipient : Address) (cheque : ChequeParams) (ownerSig : list byte)
    (w w1 w2 : W) (nonce gasPrice : Z) :
  PendingNonceAt backend (Beneficiary cheque) w = (Ok nonce, w1) ->
  SuggestGasPrice backend w1 = (Ok gasPrice, w2) ->
  exists callData,
    CashChequeBeneficiaryRequest backend to recipient cheque ownerSig w
    = (Ok (NewTransaction nonce to 0 1000000 gasPrice callData), w2).
Proof.
  intros Hn Hg. rewrite CashChequeBeneficiaryRequest_steps, Hn, Hg.
  now exists (packedCall recipient (int64 (CumulativePayout cheque)) ownerSig).
Qed.

Lemma request_succeeds_when_queries_succeed_witness :
  exists callData,
    CashChequeBeneficiaryRequest Sample.counting Sample.zeroAddress
      Sample.zeroAddress Run.chequeTopBit [] 0%nat
    = (Ok (NewTransaction 7 Sample.zeroAddress 0 1000000 20000000000 callData),
       2%nat).
Proof.
  apply (request_succeeds_when_queries_succeed Sample.counting
           Sample.zeroAddress Sample.zeroAddress Run.chequeTopBit [] 0%nat
           1%nat 2%nat 7 20000000000); reflexivity.
Defined.

(** * The rest of package main *)

(** ** The run, phase by phase *)

(** Case analysis on the answers of the environment, innermost call
    first. *)
Ltac simple_scrutinee x :=
  lazymatch x with
  | context [match _ with pair _ _ => _ end] => fail
  | context [match _ with Ok _ => _ | Err _ => _ end] => fail
  | context [if _ then _ else _] => fail
  | _ => idtac
  end.

Ltac run_cases :=
  repeat first
    [ reflexivity
    | progress cbv beta iota
    | match goal with
      | |- context [if ?b then _ else _] =>
          simple_scrutinee b; destruct b
      end
    | match goal with
      | |- context [match ?x with pair _ _ => _ end] =>
          simple_scrutinee x; destruct x
      | |- context [match ?x with Ok _ => _ | Err _ => _ end] =>
          simple_scrutinee x; destruct x
      end ].

Lemma runChequebook_phases {W : Type} (pkg : Packages W) (ethBackend : Ledger W)
    (wallet : WalletBackend W) (w : W) :
  runChequebook pkg ethBackend wallet w
  = match Accounts wallet w with
    | ([], w1) =>
        (Panicked "runtime error: index out of range [0] with length 0", w1)
    | (account :: _, w1) =>
        match deployment pkg ethBackend wallet account w1 with
        | (Err e, w2) => (Returned (Err e), w2)
        | (Ok (erc20, factory, receipt), w2) =>
            let address := firstDeployed factory (Receipt_Logs receipt) zeroAddress in
            if Address_eqb address zeroAddress then
              (Returned (Err "contract deployment failed"), w2)
            else
              match funding pkg ethBackend wallet account erc20 address w2 with
              | (Err e, w3) => (Returned (Err e), w3)
              | (Ok sig, w3) =>
                  match CashChequeBeneficiaryRequest (queries ethBackend) address
                          recipientOfRun (chequeOfRun address account) sig w3 with
                  | (Err e, w4) => (Returned (Err e), w4)
                  | (Ok tx, w4) =>
                      match SignTx wallet account tx None w4 with
                      | (Err e, w5) => (Returned (Err e), w5)
                      | (Ok signed, w5) =>
                          match SendTransaction ethBackend signed w5 with
                          | (Err e, w6) => (Returned (Err e), w6)
                          | (Ok _, w6) =>
                              returned (settlement pkg ethBackend erc20 signed w6)
                          end
                      end
                  end
              end
        end
    end.
Proof.
  unfold runChequebook.
  destruct (Accounts wallet w) as [[|account others] w1]; [reflexivity|].
  unfold deployment, funding, settlement, returned, andThen, bind, printf, ret, fail.
  unfold recipientOfRun, chequeOfRun. cbv zeta.
  run_cases.
Qed.

(** ** Comparing addresses *)

Lemma Equal_eq (xs ys : list byte) : Equal xs ys = true -> xs = ys.
Proof.
  revert ys. induction xs as [|x xs IH]; intros [|y ys] H; try discriminate.
  - reflexivity.
  - cbn [Equal] in H. apply andb_true_iff in H. destruct H as [Hb Hr].
    apply Byte.byte_dec_bl in Hb. subst y. f_equal. now apply IH.
Qed.

Lemma Address_eqb_true (a b : Address) : Address_eqb a b = true <-> a = b.
Proof.
  unfold Address_eqb, Address_Bytes. split.
  - intros H. apply Address_eq. now apply Equal_eq.
  - intros ->. apply Equal_refl.
Qed.

Lemma Address_eqb_false (a b : Address) : Address_eqb a b = false <-> a <> b.
Proof.
  destruct (Address_eqb a b) eqn:E.
  - apply Address_eqb_true in E. split; [discriminate | contradiction].
  - split; [|reflexivity]. intros _ H. apply Address_eqb_true in H. congruence.
Qed.

(** ** The text form of the recipient

    [Address_Hex] gives back the mixed-case literal of the source, and
    [HexToAddress] reads it as the twenty bytes it spells. *)

Example recipientOfRun_bytes :
  Address_Bytes recipientOfRun
  = [ xad; x4f; x6e; xfc; x65; x94; xfe; x93; x05; xbf;
      x9a; x69; xba; xb8; xbd; x94; x2a; xda; xec; xdb ].
Proof. vm_compute. reflexivity. Qed.

Example recipientOfRun_Hex :
  HexText.Address_Hex recipientOfRun
  = "0xAd4F6Efc6594fE9305bF9A69BAb8bd942aDAECDB"%string.
Proof. vm_compute. reflexivity. Qed.

(** ** The transactor *)

(** X6: the transactor signs for its own account only.  For any other
    address its signer returns the error "not authorized to sign this
    account" and the wallet is not called; for its own address it returns
    what the wallet's [SignTx] returns for that account, with no chain
    identifier, whatever [types.Signer] it is given. *)
Theorem transactor_signs_only_for_its_account {W : Type} (wallet : WalletBackend W)
    (account : Account) (signer : TypesSigner) (address : Address)
    (transaction : Transaction) (w : W) :
  let opts := NewWalletTransactor wallet account in
  From opts = Account_Address account
  /\ (address <> Account_Address account ->
      Signer opts signer address transaction w
      = (Err "not authorized to sign this account", w))
  /\ (address = Account_Address account ->
      Signer opts signer address transaction w
      = SignTx wallet account transaction None w).
Proof.
  cbn. split; [reflexivity|]. split; intros H.
  - apply Address_eqb_false in H. rewrite H. reflexivity.
  - apply Address_eqb_true in H. rewrite H. reflexivity.
Qed.

Lemma transactor_signs_only_for_its_account_witness :
  Signer (NewWalletTransactor (Demo.wallet [Demo.account0] true) Demo.account0)
    HomesteadSigner Sample.addrC Demo.someTransaction []
  = (Err "not authorized to sign this account", [])
  /\ Signer (NewWalletTransactor (Demo.wallet [Demo.account0] true) Demo.account0)
       (EIP155Signer 12345) Sample.addrB Demo.someTransaction []
     = (Ok Demo.someTransaction, ["SignTx"%string]).
Proof.
  split.
  - apply (transactor_signs_only_for_its_account
             (Demo.wallet [Demo.account0] true) Demo.account0 HomesteadSigner
             Sample.addrC Demo.someTransaction []).
    intros H. apply (f_equal address_bytes) in H. discriminate H.
  - apply (transactor_signs_only_for_its_account
             (Demo.wallet [Demo.account0] true) Demo.account0 (EIP155Signer 12345)
             Sample.addrB Demo.someTransaction []).
    reflexivity.
Defined.

(** ** Finding the deployed chequebook *)

Lemma firstDeployed_skip {W : Type} (factory : SimpleSwapFactory W)
    (logs : list Log) (address : Address) :
  (forall log, In log logs -> is_err (ParseSimpleSwapDeployed factory log) = true) ->
  firstDeployed factory logs address = address.
Proof.
  induction logs as [|log rest IH]; intros H; [reflexivity|].
  cbn [firstDeployed].
  pose proof (H log (or_introl eq_refl)) as Hl.
  destruct (ParseSimpleSwapDeployed factory log); [discriminate|].
  apply IH. intros l Hin. apply H. now right.
Qed.

(** X7: when no log of the receipt parses, the address stays what it
    was. *)
Theorem firstDeployed_no_event {W : Type} (factory : SimpleSwapFactory W)
    (logs : list Log) (address : Address) :
  (forall log, In log logs -> is_err (ParseSimpleSwapDeployed factory log) = true) ->
  firstDeployed factory logs address = address.
Proof. apply firstDeployed_skip. Qed.

Lemma firstDeployed_no_event_witness :
  firstDeployed Demo.factory [Demo.foreignLog; Demo.foreignLog] zeroAddress
  = zeroAddress.
Proof.
  apply firstDeployed_no_event.
  intros log [<-|[<-|[]]]; reflexivity.
Defined.

Lemma firstDeployed_hit {W : Type} (factory : SimpleSwapFactory W)
    (before after : list Log) (log : Log) (event : SimpleSwapDeployed)
    (address : Address) :
  (forall l, In l before -> is_err (ParseSimpleSwapDeployed factory l) = true) ->
  ParseSimpleSwapDeployed factory log = Ok event ->
  firstDeployed factory (before ++ log :: after) address = ContractAddress event.
Proof.
  intros Hb Hl. induction before as [|l rest IH].
  - cbn [app firstDeployed]. now rewrite Hl.
  - cbn [app firstDeployed].
    pose proof (Hb l (or_introl eq_refl)) as Hp.
    destruct (ParseSimpleSwapDeployed factory l); [discriminate|].
    apply IH. intros l' Hin. apply Hb. now right.
Qed.

(** X8: the address taken is the one of the first log that parses; the logs
    after it are not looked at. *)
Theorem firstDeployed_first_event {W : Type} (factory : SimpleSwapFactory W)
    (before after : list Log) (log : Log) (event : SimpleSwapDeployed)
    (address : Address) :
  (forall l, In l before -> is_err (ParseSimpleSwapDeployed factory l) = true) ->
  ParseSimpleSwapDeployed factory log = Ok event ->
  firstDeployed factory (before ++ log :: after) address = ContractAddress event.
Proof. apply firstDeployed_hit. Qed.

Lemma firstDeployed_first_event_witness :
  Address_Bytes
    (firstDeployed Demo.factory
       ([Demo.foreignLog] ++ Demo.deployedLog :: [Demo.laterLog]) zeroAddress)
  = Address_Bytes Sample.addrC.
Proof.
  rewrite (firstDeployed_first_event Demo.factory [Demo.foreignLog]
             [Demo.laterLog] Demo.deployedLog
             (mkSimpleSwapDeployed (BytesToAddress (Address_Bytes Sample.addrC)))
             zeroAddress).
  - reflexivity.
  - intros l [<-|[]]. reflexivity.
  - reflexivity.
Defined.

(** ** The demonstration run *)

(** X9: with a wallet that has no account the run panics on the index of the
    first account, after the one call that lists the accounts. *)
Theorem runChequebook_without_account {W : Type} (pkg : Packages W)
    (ethBackend : Ledger W) (wallet : WalletBackend W) (w w1 : W) :
  Accounts wallet w = ([], w1) ->
  runChequebook pkg ethBackend wallet w
  = (Panicked "runtime error: index out of range [0] with length 0", w1).
Proof. intros H. unfold runChequebook. rewrite H. reflexivity. Qed.

Lemma runChequebook_without_account_witness :
  runChequebook (Demo.packages Demo.goodLogs) Demo.ledger (Demo.wallet [] true) []
  = (Panicked "runtime error: index out of range [0] with length 0",
     ["Accounts"%string]).
Proof. apply runChequebook_without_account. reflexivity. Defined.

(** A deployment that leaves the address at its zero value ends the run. *)
Lemma runChequebook_no_address {W : Type} (pkg : Packages W)
    (ethBackend : Ledger W) (wallet : WalletBackend W) (w w1 w2 : W)
    (account : Account) (others : list Account) (erc20 : ERC20Mintable W)
    (factory : SimpleSwapFactory W) (receipt : Receipt) :
  Accounts wallet w = (account :: others, w1) ->
  deployment pkg ethBackend wallet account w1 = (Ok (erc20, factory, receipt), w2) ->
  firstDeployed factory (Receipt_Logs receipt) zeroAddress = zeroAddress ->
  runChequebook pkg ethBackend wallet w
  = (Returned (Err "contract deployment failed"), w2).
Proof.
  intros Ha Hd Hz. rewrite runChequebook_phases, Ha, Hd. cbv zeta.
  rewrite Hz. change (Address_eqb zeroAddress zeroAddress) with true.
  reflexivity.
Qed.

(** X10: when the deployment phase succeeds and no log of its receipt
    parses as a deployment event, the run returns "contract deployment
    failed" and stops there: no tokens are minted and nothing is signed. *)
Theorem runChequebook_no_deployment_event {W : Type} (pkg : Packages W)
    (ethBackend : Ledger W) (wallet : WalletBackend W) (w w1 w2 : W)
    (account : Account) (others : list Account) (erc20 : ERC20Mintable W)
    (factory : SimpleSwapFactory W) (receipt : Receipt) :
  Accounts wallet w = (account :: others, w1) ->
  deployment pkg ethBackend wallet account w1 = (Ok (erc20, factory, receipt), w2) ->
  (forall log, In log (Receipt_Logs receipt) ->
               is_err (ParseSimpleSwapDeployed factory log) = true) ->
  runChequebook pkg ethBackend wallet w
  = (Returned (Err "contract deployment failed"), w2).
Proof.
  intros Ha Hd Hl. apply (runChequebook_no_address _ _ _ _ _ _ _ _ _ _ _ Ha Hd).
  now apply firstDeployed_skip.
Qed.

Lemma runChequebook_no_deployment_event_witness :
  runChequebook (Demo.packages [Demo.foreignLog]) Demo.ledger
    (Demo.wallet [Demo.account0] true) []
  = (Returned (Err "contract deployment failed"), Demo.journalOfDeployment).
Proof.
  apply (runChequebook_no_deployment_event (Demo.packages [Demo.foreignLog])
           Demo.ledger (Demo.wallet [Demo.account0] true) []
           ["Accounts"%string] Demo.journalOfDeployment Demo.account0 []
           Demo.erc20 Demo.factory (mkReceipt 1 [Demo.foreignLog])).
  - reflexivity.
  - vm_compute. reflexivity.
  - intros log [<-|[]]. reflexivity.
Defined.

(** X11: when the first log that parses carries the zero address, the run
    returns "contract deployment failed" as well, whatever the later logs
    hold. *)
Theorem runChequebook_zero_address_event {W : Type} (pkg : Packages W)
    (ethBackend : Ledger W) (wallet : WalletBackend W) (w w1 w2 : W)
    (account : Account) (others : list Account) (erc20 : ERC20Mintable W)
    (factory : SimpleSwapFactory W) (receipt : Receipt)
    (before after : list Log) (log : Log) (event : SimpleSwapDeployed) :
  Accounts wallet w = (account :: others, w1) ->
  deployment pkg ethBackend wallet account w1 = (Ok (erc20, factory, receipt), w2) ->
  Receipt_Logs receipt = before ++ log :: after ->
  (forall l, In l before -> is_err (ParseSimpleSwapDeployed factory l) = true) ->
  ParseSimpleSwapDeployed factory log = Ok event ->
  ContractAddress event = zeroAddress ->
  runChequebook pkg ethBackend wallet w
  = (Returned (Err "contract deployment failed"), w2).
Proof.
  intros Ha Hd Hlogs Hb Hl Hz.
  apply (runChequebook_no_address _ _ _ _ _ _ _ _ _ _ _ Ha Hd).
  rewrite Hlogs, (firstDeployed_hit factory before after log event) by assumption.
  exact Hz.
Qed.

Lemma runChequebook_zero_address_event_witness :
  runChequebook (Demo.packages [Demo.foreignLog; Demo.zeroLog; Demo.deployedLog])
    Demo.ledger (Demo.wallet [Demo.account0] true) []
  = (Returned (Err "contract deployment failed"), Demo.journalOfDeployment).
Proof.
  apply (runChequebook_zero_address_event
           (Demo.packages [Demo.foreignLog; Demo.zeroLog; Demo.deployedLog])
           Demo.ledger (Demo.wallet [Demo.account0] true) []
           ["Accounts"%string] Demo.journalOfDeployment Demo.account0 []
           Demo.erc20 Demo.factory
           (mkReceipt 1 [Demo.foreignLog; Demo.zeroLog; Demo.deployedLog])
           [Demo.foreignLog] [Demo.deployedLog] Demo.zeroLog
           (mkSimpleSwapDeployed (BytesToAddress []))).
  - reflexivity.
  - vm_compute. reflexivity.
  - reflexivity.
  - intros l [<-|[]]. reflexivity.
  - reflexivity.
  - apply Address_eq. reflexivity.
Defined.

Lemma funding_steps {W : Type} (pkg : Packages W) (ethBackend : Ledger W)
    (wallet : WalletBackend W) (account : Account) (erc20 : ERC20Mintable W)
    (address : Address) (w : W) :
  funding pkg ethBackend wallet account erc20 address w
  = match Mint erc20 (NewWalletTransactor wallet account) address 50000
            (Printf pkg ("deployed simpleswap to " ++ HexText.Address_Hex address
                           ++ newline)%string w) with
    | (Err e, wa) => (Err e, wa)
    | (Ok tx, wa) =>
        match WaitMined pkg ethBackend tx wa with
        | (Err e, wb) => (Err e, wb)
        | (Ok _, wb) =>
            SignData wallet account MimetypeTextPlain
              (sigHash (chequeOfRun address account)) wb
        end
    end.
Proof.
  unfold funding, andThen, bind, printf, big_NewInt. cbv zeta.
  run_cases.
Qed.

(** X12: when the wallet refuses to sign the cheque, the run returns the
    wallet's error and stops there: the ledger is not asked for a nonce and
    no transaction is built, signed or sent. *)
Theorem runChequebook_signature_refused {W : Type} (pkg : Packages W)
    (ethBackend : Ledger W) (wallet : WalletBackend W) (w w1 w2 wa wb w3 : W)
    (account : Account) (others : list Account) (erc20 : ERC20Mintable W)
    (factory : SimpleSwapFactory W) (receipt minted : Receipt)
    (tx : Transaction) (e : error) :
  let address := firstDeployed factory (Receipt_Logs receipt) zeroAddress in
  let cheque :=
    {| Contract := address;
       Beneficiary := Account_Address account;
       CumulativePayout := 100 |} in
  Accounts wallet w = (account :: others, w1) ->
  deployment pkg ethBackend wallet account w1 = (Ok (erc20, factory, receipt), w2) ->
  address <> zeroAddress ->
  Mint erc20 (NewWalletTransactor wallet account) address 50000
    (Printf pkg ("deployed simpleswap to " ++ HexText.Address_Hex address
                   ++ newline)%string w2) = (Ok tx, wa) ->
  WaitMined pkg ethBackend tx wa = (Ok minted, wb) ->
  SignData wallet account MimetypeTextPlain (sigHash cheque) wb = (Err e, w3) ->
  runChequebook pkg ethBackend wallet w = (Returned (Err e), w3).
Proof.
  intros address cheque Ha Hd Hz Hm Hw Hs.
  rewrite runChequebook_phases, Ha, Hd. cbv zeta. fold address.
  apply Address_eqb_false in Hz. rewrite Hz.
  rewrite funding_steps, Hm, Hw. fold address.
  change (chequeOfRun address account) with cheque. rewrite Hs. reflexivity.
Qed.

Lemma runChequebook_signature_refused_witness :
  runChequebook (Demo.packages Demo.goodLogs) Demo.ledger
    (Demo.wallet [Demo.account0] false) []
  = (Returned (Err "request denied"), Demo.journalOfFunding).
Proof.
  apply (runChequebook_signature_refused (Demo.packages Demo.goodLogs)
           Demo.ledger (Demo.wallet [Demo.account0] false) []
           ["Accounts"%string] Demo.journalOfDeployment
           (Demo.journalOfDeployment
              ++ ["deployed simpleswap to 0xC0C0c0c0C0C0c0c0c0C0c0C0C0C0C0C0C0C0c0c0"
                    ++ newline; "Mint"]%string)
           (Demo.journalOfDeployment
              ++ ["deployed simpleswap to 0xC0C0c0c0C0C0c0c0c0C0c0C0C0C0C0C0C0C0c0c0"
                    ++ newline; "Mint"; "WaitMined"]%string)
           Demo.journalOfFunding Demo.account0 []
           Demo.erc20 Demo.factory (mkReceipt 1 Demo.goodLogs)
           (mkReceipt 1 Demo.goodLogs) Demo.someTransaction "request denied"%string).
  - reflexivity.
  - vm_compute. reflexivity.
  - intros H. apply (f_equal address_bytes) in H. vm_compute in H. discriminate H.
  - vm_compute. reflexivity.
  - reflexivity.
  - reflexivity.
Defined.

(** A run that returns [nil] went through every phase. *)
Lemma runChequebook_ok {W : Type} (pkg : Packages W) (ethBackend : Ledger W)
    (wallet : WalletBackend W) (w w' : W) :
  runChequebook pkg ethBackend wallet w = (Returned (Ok tt), w') ->
  exists account others w1 erc20 factory receipt w2 sig w3 tx w4 signed w5 w6,
    Accounts wallet w = (account :: others, w1)
    /\ deployment pkg ethBackend wallet account w1
       = (Ok (erc20, factory, receipt), w2)
    /\ firstDeployed factory (Receipt_Logs receipt) zeroAddress <> zeroAddress
    /\ funding pkg ethBackend wallet account erc20
         (firstDeployed factory (Receipt_Logs receipt) zeroAddress) w2
       = (Ok sig, w3)
    /\ CashChequeBeneficiaryRequest (queries ethBackend)
         (firstDeployed factory (Receipt_Logs receipt) zeroAddress)
         recipientOfRun
         (chequeOfRun (firstDeployed factory (Receipt_Logs receipt) zeroAddress)
            account)
         sig w3 = (Ok tx, w4)
    /\ SignTx wallet account tx None w4 = (Ok signed, w5)
    /\ SendTransaction ethBackend signed w5 = (Ok tt, w6)
    /\ settlement pkg ethBackend erc20 signed w6 = (Ok tt, w').
Proof.
  rewrite runChequebook_phases.
  destruct (Accounts wallet w) as [[|account others] w1] eqn:Ha; [discriminate|].
  destruct (deployment pkg ethBackend wallet account w1)
    as [[[[erc20 factory] receipt]|e] w2] eqn:Hd; [|discriminate].
  cbv zeta.
  destruct (Address_eqb (firstDeployed factory (Receipt_Logs receipt) zeroAddress)
              zeroAddress) eqn:Hz; [discriminate|].
  destruct (funding pkg ethBackend wallet account erc20 _ w2)
    as [[sig|e] w3] eqn:Hf; [|discriminate].
  destruct (CashChequeBeneficiaryRequest (queries ethBackend) _ _ _ sig w3)
    as [[tx|e] w4] eqn:Hc; [|discriminate].
  destruct (SignTx wallet account tx None w4) as [[signed|e] w5] eqn:Hs;
    [|discriminate].
  destruct (SendTransaction ethBackend signed w5) as [[[]|e] w6] eqn:Hx;
    [|discriminate].
  unfold returned.
  destruct (settlement pkg ethBackend erc20 signed w6) as [[[]|e] w7] eqn:Hend;
    cbn [fst snd]; intros H; inversion H; subst.
  exists account, others, w1, erc20, factory, receipt, w2, sig, w3, tx, w4,
    signed, w5, w6.
  apply Address_eqb_false in Hz. repeat split; assumption.
Qed.

(** X13: a run that returns [nil] has had the wallet sign, as plain text, the
    hash of the cheque over 100 for the deployed chequebook and the first
    account; has built the cash-out transaction for the fixed recipient from
    that signature, addressed to the deployed chequebook, with the pending
    nonce of that same account; has had the wallet sign it with that account;
    and has sent the signed transaction. *)
Theorem runChequebook_cash_out_chain {W : Type} (pkg : Packages W)
    (ethBackend : Ledger W) (wallet : WalletBackend W) (w w' : W) :
  runChequebook pkg ethBackend wallet w = (Returned (Ok tt), w') ->
  exists account others w1 erc20 factory receipt w2,
    Accounts wallet w = (account :: others, w1)
    /\ deployment pkg ethBackend wallet account w1
       = (Ok (erc20, factory, receipt), w2)
    /\ let address := firstDeployed factory (Receipt_Logs receipt) zeroAddress in
       let cheque :=
         {| Contract := address;
            Beneficiary := Account_Address account;
            CumulativePayout := 100 |} in
       address <> zeroAddress
       /\ exists wb sig w3 nonce wn gasPrice w4 signed w5 w6,
            SignData wallet account "text/plain" (sigHash cheque) wb = (Ok sig, w3)
            /\ PendingNonceAt (queries ethBackend) (Account_Address account) w3
               = (Ok nonce, wn)
            /\ SuggestGasPrice (queries ethBackend) wn = (Ok gasPrice, w4)
            /\ SignTx wallet account
                 (NewTransaction nonce address 0 1000000 gasPrice
                    (packedCall recipientOfRun 100 sig))
                 None w4 = (Ok signed, w5)
            /\ SendTransaction ethBackend signed w5 = (Ok tt, w6).
Proof.
  intros Hrun. apply runChequebook_ok in Hrun.
  destruct Hrun as (account & others & w1 & erc20 & factory & receipt & w2 & sig
                    & w3 & tx & w4 & signed & w5 & w6
                    & Ha & Hd & Hz & Hf & Hc & Hs & Hx & _).
  exists account, others, w1, erc20, factory, receipt, w2.
  split; [exact Ha|]. split; [exact Hd|]. cbv zeta. split; [exact Hz|].
  rewrite funding_steps in Hf.
  destruct (Mint erc20 _ _ _ _) as [[mtx|e] wa]; [|discriminate].
  destruct (WaitMined pkg ethBackend mtx wa) as [[minted|e] wb]; [|discriminate].
  apply CashChequeBeneficiaryRequest_ok in Hc.
  destruct Hc as (nonce & wn & gasPrice & Hn & Hg & ->).
  exists wb, sig, w3, nonce, wn, gasPrice, w4, signed, w5, w6.
  repeat split; assumption.
Qed.

Lemma runChequebook_cash_out_chain_witness :
  exists account others w1 erc20 factory receipt w2,
    Accounts (Demo.wallet [Demo.account0] true) [] = (account :: others, w1)
    /\ deployment (Demo.packages Demo.goodLogs) Demo.ledger
         (Demo.wallet [Demo.account0] true) account w1
       = (Ok (erc20, factory, receipt), w2)
    /\ let address := firstDeployed factory (Receipt_Logs receipt) zeroAddress in
       let cheque :=
         {| Contract := address;
            Beneficiary := Account_Address account;
            CumulativePayout := 100 |} in
       address <> zeroAddress
       /\ exists wb sig w3 nonce wn gasPrice w4 signed w5 w6,
            SignData (Demo.wallet [Demo.account0] true) account "text/plain"
              (sigHash cheque) wb = (Ok sig, w3)
            /\ PendingNonceAt (queries Demo.ledger) (Account_Address account) w3
               = (Ok nonce, wn)
            /\ SuggestGasPrice (queries Demo.ledger) wn = (Ok gasPrice, w4)
            /\ SignTx (Demo.wallet [Demo.account0] true) account
                 (NewTransaction nonce address 0 1000000 gasPrice
                    (packedCall recipientOfRun 100 sig))
                 None w4 = (Ok signed, w5)
            /\ SendTransaction Demo.ledger signed w5 = (Ok tt, w6).
Proof.
  apply (runChequebook_cash_out_chain (Demo.packages Demo.goodLogs) Demo.ledger
           (Demo.wallet [Demo.account0] true) [] Demo.journalOfRun).
  vm_compute. reflexivity.
Defined.

(** ** [run] and [main] *)

(** X14: [main] never returns an error.  When it ends without a panic, the
    node at http://localhost:8545 was dialled, the signer at
    ./config/clef.ipc was opened, in that order, and the whole run over
    them returned [nil]. *)
Theorem main_ends_only_after_complete_run {W : Type} (pkg : Packages W)
    (w w' : W) (r : result unit) :
  main pkg w = (Returned r, w') ->
  r = Ok tt
  /\ exists ethBackend w1 wallet w2,
       Dial pkg "http://localhost:8545" w = (Ok ethBackend, w1)
       /\ NewExternalSigner pkg "./config/clef.ipc" w1 = (Ok wallet, w2)
       /\ runChequebook pkg ethBackend wallet w2 = (Returned (Ok tt), w').
Proof.
  unfold main, run, backendURL.
  destruct (Dial pkg "http://localhost:8545" w) as [[ethBackend|e] w1] eqn:Hd;
    [|discriminate].
  destruct (NewExternalSigner pkg "./config/clef.ipc" w1) as [[wallet|e] w2] eqn:Hs;
    [|discriminate].
  destruct (runChequebook pkg ethBackend wallet w2) as [[[[]|e]|msg] w3] eqn:Hrun;
    intros H; inversion H; subst.
  split; [reflexivity|]. now exists ethBackend, w1, wallet, w2.
Qed.

Lemma main_ends_only_after_complete_run_witness :
  Ok tt = Ok tt
  /\ exists ethBackend w1 wallet w2,
       Dial (Demo.packages Demo.goodLogs) "http://localhost:8545" []
       = (Ok ethBackend, w1)
       /\ NewExternalSigner (Demo.packages Demo.goodLogs) "./config/clef.ipc" w1
          = (Ok wallet, w2)
       /\ runChequebook (Demo.packages Demo.goodLogs) ethBackend wallet w2
          = (Returned (Ok tt),
             ["Dial"; "NewExternalSigner"]%string
               ++ Demo.journalOfRun).
Proof.
  apply (main_ends_only_after_complete_run (Demo.packages Demo.goodLogs) []
           (["Dial"; "NewExternalSigner"]%string ++ Demo.journalOfRun) (Ok tt)).
  vm_compute. reflexivity.
Defined.
